(** * CodeWhisperer job-state models: [CodeScanState] and [TransformByQState]

    A shallow embedding of the security-scan and transform-by-Q state holders
    of the CodeWhisperer models file, together with the two stopped-by-user
    error classes, and the properties their callers rely on.

    TypeScript objects are mutated in place; a method is embedded as a state
    transformer over the object's private fields that also returns the
    method's result. *)

From Stdlib Require Import Ascii String List Bool Arith Lia DecimalString.
Import ListNotations.
Open Scope string_scope.

(** ** Methods as state transformers *)

(** A method of a class whose instances have fields [S], returning [A]:
    it receives [this] and gives back its result and [this] afterwards. *)
Definition Method (S A : Type) : Type := S -> A * S.

Definition ret {S A : Type} (a : A) : Method S A := fun this => (a, this).

Definition bind {S A B : Type} (m : Method S A) (k : A -> Method S B) : Method S B :=
  fun this => let (a, this') := m this in k a this'.

(** [read f] is the body [return this.f]. *)
Definition read {S A : Type} (f : S -> A) : Method S A := fun this => (f this, this).

(** [write upd] is the body of an assignment to a field of [this]. *)
Definition write {S : Type} (upd : S -> S) : Method S unit := fun this => (tt, upd this).

Definition result {S A : Type} (m : Method S A) (this : S) : A := fst (m this).
Definition after {S A : Type} (m : Method S A) (this : S) : S := snd (m this).

Notation "x <- m ;; k" := (bind m (fun x => k))
  (at level 61, m at next level, right associativity).

(** ** Enumerations *)

(** [enum CodeScanStatus]: a numeric enum, members numbered from 0. *)
Inductive CodeScanStatus : Type :=
| CodeScanStatus_NotStarted
| CodeScanStatus_Running
| CodeScanStatus_Cancelling.

Definition CodeScanStatus_value (s : CodeScanStatus) : nat :=
  match s with
  | CodeScanStatus_NotStarted => 0
  | CodeScanStatus_Running => 1
  | CodeScanStatus_Cancelling => 2
  end.

(** [a === b] on two members of the numeric enum compares their numbers. *)
Definition CodeScanStatus_strict_eq (a b : CodeScanStatus) : bool :=
  Nat.eqb (CodeScanStatus_value a) (CodeScanStatus_value b).

(** [enum TransformByQStatus]: a string enum. *)
Inductive TransformByQStatus : Type :=
| TransformByQStatus_NotStarted
| TransformByQStatus_Running
| TransformByQStatus_Cancelled
| TransformByQStatus_Failed
| TransformByQStatus_Succeeded
| TransformByQStatus_PartiallySucceeded.

Definition TransformByQStatus_value (s : TransformByQStatus) : string :=
  match s with
  | TransformByQStatus_NotStarted => "Not Started"
  | TransformByQStatus_Running => "Running"
  | TransformByQStatus_Cancelled => "Cancelled"
  | TransformByQStatus_Failed => "Failed"
  | TransformByQStatus_Succeeded => "Succeeded"
  | TransformByQStatus_PartiallySucceeded => "Partially Succeeded"
  end.

(** [a === b] on two members of the string enum compares their strings. *)
Definition TransformByQStatus_strict_eq (a b : TransformByQStatus) : bool :=
  String.eqb (TransformByQStatus_value a) (TransformByQStatus_value b).

(** [enum TransformByQReviewStatus]. *)
Inductive TransformByQReviewStatus : Type :=
| TransformByQReviewStatus_NotStarted
| TransformByQReviewStatus_PreparingReview
| TransformByQReviewStatus_InReview.

Definition TransformByQReviewStatus_value (s : TransformByQReviewStatus) : string :=
  match s with
  | TransformByQReviewStatus_NotStarted => "NotStarted"
  | TransformByQReviewStatus_PreparingReview => "PreparingReview"
  | TransformByQReviewStatus_InReview => "InReview"
  end.

(** [enum JDKVersion]: a string enum, declared in the order 8, 11, 17. *)
Inductive JDKVersion : Type :=
| JDK8
| JDK11
| JDK17.

Definition JDKVersion_value (v : JDKVersion) : string :=
  match v with
  | JDK8 => "8"
  | JDK11 => "11"
  | JDK17 => "17"
  end.

(** The version number a member stands for: its string read as a decimal. *)
Definition JDKVersion_number (v : JDKVersion) : nat :=
  match NilZero.uint_of_string (JDKVersion_value v) with
  | Some d => Nat.of_uint d
  | None => 0
  end.

(** [v] is the lowest member of the enumeration, by version number. *)
Definition JDKVersion_lowest (v : JDKVersion) : Prop :=
  forall w : JDKVersion, JDKVersion_number v <= JDKVersion_number w.

(** ** Values returned by method calls *)

(** What a call can hand back to JavaScript code: [undefined] (also the
    result of a method without [return]), a boolean, a string, a member of
    one of the enums above, or whatever [getIcon] produced. *)
Inductive Value (Icon : Type) : Type :=
| VUndefined
| VBool (b : bool)
| VString (s : string)
| VStatus (s : TransformByQStatus)
| VJDKVersion (v : JDKVersion)
| VIcon (i : Icon).

Arguments VUndefined {Icon}.
Arguments VBool {Icon} b.
Arguments VString {Icon} s.
Arguments VStatus {Icon} s.
Arguments VJDKVersion {Icon} v.
Arguments VIcon {Icon} i.

Definition of_option {Icon A : Type} (inj : A -> Value Icon) (o : option A) : Value Icon :=
  match o with
  | Some a => inj a
  | None => VUndefined
  end.

(** Exactly one entry of a list of answers is [true]. *)
Definition exactly_one (answers : list bool) : Prop :=
  count_occ bool_dec answers true = 1.

(** ** [class CodeScanState] *)

Module CodeScanState.

Record t : Type := mk { codeScanState : CodeScanStatus }.

(** [new CodeScanState()]: the field initialiser. *)
Definition new : t := {| codeScanState := CodeScanStatus_NotStarted |}.

Definition isNotStarted : Method t bool :=
  read (fun this => CodeScanStatus_strict_eq (codeScanState this) CodeScanStatus_NotStarted).

Definition isRunning : Method t bool :=
  read (fun this => CodeScanStatus_strict_eq (codeScanState this) CodeScanStatus_Running).

Definition isCancelling : Method t bool :=
  read (fun this => CodeScanStatus_strict_eq (codeScanState this) CodeScanStatus_Cancelling).

Definition setToNotStarted : Method t unit :=
  write (fun _ => {| codeScanState := CodeScanStatus_NotStarted |}).

Definition setToCancelling : Method t unit :=
  write (fun _ => {| codeScanState := CodeScanStatus_Cancelling |}).

Definition setToRunning : Method t unit :=
  write (fun _ => {| codeScanState := CodeScanStatus_Running |}).

(** The [switch] has no [default]: a value matching no [case] falls out of
    it and the method returns [undefined], here [None]. *)
Definition getPrefixTextForButton : Method t (option string) :=
  fun this =>
    let s := codeScanState this in
    (if CodeScanStatus_strict_eq s CodeScanStatus_NotStarted then Some "Run"
     else if CodeScanStatus_strict_eq s CodeScanStatus_Running then Some "Stop"
     else if CodeScanStatus_strict_eq s CodeScanStatus_Cancelling then Some "Stopping"
     else None,
     this).

Section WithIcons.
(** [getIcon] of [shared/icons] is taken as given. *)
Context {Icon : Type} (getIcon : string -> Icon).

Definition getIconForButton : Method t (option Icon) :=
  fun this =>
    let s := codeScanState this in
    (if CodeScanStatus_strict_eq s CodeScanStatus_NotStarted
     then Some (getIcon "vscode-debug-alt-small")
     else if CodeScanStatus_strict_eq s CodeScanStatus_Running
     then Some (getIcon "vscode-stop-circle")
     else if CodeScanStatus_strict_eq s CodeScanStatus_Cancelling
     then Some (getIcon "vscode-icons:loading~spin")
     else None,
     this).
End WithIcons.

(** The transition setters, as calls. *)
Inductive Setter : Type :=
| SetToNotStarted
| SetToCancelling
| SetToRunning.

Definition call (c : Setter) : Method t unit :=
  match c with
  | SetToNotStarted => setToNotStarted
  | SetToCancelling => setToCancelling
  | SetToRunning => setToRunning
  end.

(** The status a setter is named after. *)
Definition target (c : Setter) : CodeScanStatus :=
  match c with
  | SetToNotStarted => CodeScanStatus_NotStarted
  | SetToCancelling => CodeScanStatus_Cancelling
  | SetToRunning => CodeScanStatus_Running
  end.

(** A sequence of setter calls on one object, first call first. *)
Fixpoint run (cs : list Setter) (this : t) : t :=
  match cs with
  | [] => this
  | c :: cs' => run cs' (after (call c) this)
  end.

(** The three state predicates, in declaration order. *)
Definition predicates (this : t) : list bool :=
  [result isNotStarted this; result isRunning this; result isCancelling this].

(** The methods that return something. *)
Inductive Getter : Type :=
| IsNotStarted
| IsRunning
| IsCancelling
| GetPrefixTextForButton
| GetIconForButton.

(** Every public method of the class, as a call. *)
Inductive Call : Type :=
| Get (g : Getter)
| Set_ (c : Setter).

Section Calls.
Context {Icon : Type} (getIcon : string -> Icon).

Definition observe (g : Getter) : Method t (Value Icon) :=
  match g with
  | IsNotStarted => b <- isNotStarted ;; ret (VBool b)
  | IsRunning => b <- isRunning ;; ret (VBool b)
  | IsCancelling => b <- isCancelling ;; ret (VBool b)
  | GetPrefixTextForButton => o <- getPrefixTextForButton ;; ret (of_option VString o)
  | GetIconForButton => o <- getIconForButton getIcon ;; ret (of_option VIcon o)
  end.

Definition invoke (c : Call) : Method t (Value Icon) :=
  match c with
  | Get g => observe g
  | Set_ c => _ <- call c ;; ret VUndefined
  end.

(** A sequence of arbitrary calls on one object, first call first. *)
Fixpoint session (cs : list Call) (this : t) : t :=
  match cs with
  | [] => this
  | c :: cs' => session cs' (after (invoke c) this)
  end.
End Calls.

End CodeScanState.

(** The module-level singleton. *)
Definition codeScanState : CodeScanState.t := CodeScanState.new.

(** ** [class TransformByQState] *)

Module TransformByQState.

Record t : Type := mk {
  transformByQState : TransformByQStatus;
  projectName : string;
  projectPath : string;
  jobId : string;
  sourceJDKVersion : JDKVersion;
  targetJDKVersion : JDKVersion;
  planFilePath : string;
  summaryFilePath : string;
  polledJobStatus : string;
  jobFailureReason : string
}.

(** [new TransformByQState()]: the field initialisers, in declaration order. *)
Definition new : t :=
  {| transformByQState := TransformByQStatus_NotStarted;
     projectName := "";
     projectPath := "";
     jobId := "";
     sourceJDKVersion := JDK8;
     targetJDKVersion := JDK17;
     planFilePath := "";
     summaryFilePath := "";
     polledJobStatus := "";
     jobFailureReason := "" |}.

(** *** Assignments [this.f = v], one per field *)

Definition assign_transformByQState (v : TransformByQStatus) (this : t) : t :=
  mk v (projectName this) (projectPath this) (jobId this)
     (sourceJDKVersion this) (targetJDKVersion this)
     (planFilePath this) (summaryFilePath this)
     (polledJobStatus this) (jobFailureReason this).

Definition assign_projectName (v : string) (this : t) : t :=
  mk (transformByQState this) v (projectPath this) (jobId this)
     (sourceJDKVersion this) (targetJDKVersion this)
     (planFilePath this) (summaryFilePath this)
     (polledJobStatus this) (jobFailureReason this).

Definition assign_projectPath (v : string) (this : t) : t :=
  mk (transformByQState this) (projectName this) v (jobId this)
     (sourceJDKVersion this) (targetJDKVersion this)
     (planFilePath this) (summaryFilePath this)
     (polledJobStatus this) (jobFailureReason this).

Definition assign_jobId (v : string) (this : t) : t :=
  mk (transformByQState this) (projectName this) (projectPath this) v
     (sourceJDKVersion this) (targetJDKVersion this)
     (planFilePath this) (summaryFilePath this)
     (polledJobStatus this) (jobFailureReason this).

Definition assign_sourceJDKVersion (v : JDKVersion) (this : t) : t :=
  mk (transformByQState this) (projectName this) (projectPath this) (jobId this)
     v (targetJDKVersion this)
     (planFilePath this) (summaryFilePath this)
     (polledJobStatus this) (jobFailureReason this).

Definition assign_targetJDKVersion (v : JDKVersion) (this : t) : t :=
  mk (transformByQState this) (projectName this) (projectPath this) (jobId this)
     (sourceJDKVersion this) v
     (planFilePath this) (summaryFilePath this)
     (polledJobStatus this) (jobFailureReason this).

Definition assign_planFilePath (v : string) (this : t) : t :=
  mk (transformByQState this) (projectName this) (projectPath this) (jobId this)
     (sourceJDKVersion this) (targetJDKVersion this)
     v (summaryFilePath this)
     (polledJobStatus this) (jobFailureReason this).

Definition assign_summaryFilePath (v : string) (this : t) : t :=
  mk (transformByQState this) (projectName this) (projectPath this) (jobId this)
     (sourceJDKVersion this) (targetJDKVersion this)
     (planFilePath this) v
     (polledJobStatus this) (jobFailureReason this).

Definition assign_polledJobStatus (v : string) (this : t) : t :=
  mk (transformByQState this) (projectName this) (projectPath this) (jobId this)
     (sourceJDKVersion this) (targetJDKVersion this)
     (planFilePath this) (summaryFilePath this)
     v (jobFailureReason this).

Definition assign_jobFailureReason (v : string) (this : t) : t :=
  mk (transformByQState this) (projectName this) (projectPath this) (jobId this)
     (sourceJDKVersion this) (targetJDKVersion this)
     (planFilePath this) (summaryFilePath this)
     (polledJobStatus this) v.

(** *** State predicates *)

Definition isNotStarted : Method t bool :=
  read (fun this => TransformByQStatus_strict_eq (transformByQState this) TransformByQStatus_NotStarted).

Definition isRunning : Method t bool :=
  read (fun this => TransformByQStatus_strict_eq (transformByQState this) TransformByQStatus_Running).

Definition isCancelled : Method t bool :=
  read (fun this => TransformByQStatus_strict_eq (transformByQState this) TransformByQStatus_Cancelled).

Definition isFailed : Method t bool :=
  read (fun this => TransformByQStatus_strict_eq (transformByQState this) TransformByQStatus_Failed).

Definition isSucceeded : Method t bool :=
  read (fun this => TransformByQStatus_strict_eq (transformByQState this) TransformByQStatus_Succeeded).

Definition isPartiallySucceeded : Method t bool :=
  read (fun this =>
          TransformByQStatus_strict_eq (transformByQState this) TransformByQStatus_PartiallySucceeded).

(** *** Getters *)

Definition getProjectName : Method t string := read projectName.
Definition getProjectPath : Method t string := read projectPath.
Definition getJobId : Method t string := read jobId.
Definition getSourceJDKVersion : Method t JDKVersion := read sourceJDKVersion.
Definition getTargetJDKVersion : Method t JDKVersion := read targetJDKVersion.
Definition getStatus : Method t TransformByQStatus := read transformByQState.
Definition getPolledJobStatus : Method t string := read polledJobStatus.
Definition getPlanFilePath : Method t string := read planFilePath.
Definition getSummaryFilePath : Method t string := read summaryFilePath.
Definition getJobFailureReason : Method t string := read jobFailureReason.

(** *** Transition setters *)

Definition setToNotStarted : Method t unit :=
  write (assign_transformByQState TransformByQStatus_NotStarted).
Definition setToRunning : Method t unit :=
  write (assign_transformByQState TransformByQStatus_Running).
Definition setToCancelled : Method t unit :=
  write (assign_transformByQState TransformByQStatus_Cancelled).
Definition setToFailed : Method t unit :=
  write (assign_transformByQState TransformByQStatus_Failed).
Definition setToSucceeded : Method t unit :=
  write (assign_transformByQState TransformByQStatus_Succeeded).
Definition setToPartiallySucceeded : Method t unit :=
  write (assign_transformByQState TransformByQStatus_PartiallySucceeded).

(** *** Metadata setters *)

Definition setProjectName (name : string) : Method t unit := write (assign_projectName name).
Definition setProjectPath (path : string) : Method t unit := write (assign_projectPath path).
Definition setJobId (id : string) : Method t unit := write (assign_jobId id).
Definition setSourceJDKVersionToJDK8 : Method t unit := write (assign_sourceJDKVersion JDK8).
Definition setSourceJDKVersionToJDK11 : Method t unit := write (assign_sourceJDKVersion JDK11).
Definition setTargetJDKVersionToJDK17 : Method t unit := write (assign_targetJDKVersion JDK17).
Definition setPlanFilePath (filePath : string) : Method t unit := write (assign_planFilePath filePath).
Definition setPolledJobStatus (status : string) : Method t unit :=
  write (assign_polledJobStatus status).
Definition setSummaryFilePath (filePath : string) : Method t unit :=
  write (assign_summaryFilePath filePath).
Definition setJobFailureReason (reason : string) : Method t unit :=
  write (assign_jobFailureReason reason).

(** *** Presentation *)

(** [case NotStarted], [case Cancelled], then [default]. *)
Definition getPrefixTextForButton : Method t string :=
  read (fun this =>
          let s := transformByQState this in
          if TransformByQStatus_strict_eq s TransformByQStatus_NotStarted then "Run"
          else if TransformByQStatus_strict_eq s TransformByQStatus_Cancelled then "Stopping"
          else "Stop").

Section WithIcons.
(** [getIcon] of [shared/icons] is taken as given. *)
Context {Icon : Type} (getIcon : string -> Icon).

(** [case NotStarted], then [default]. *)
Definition getIconForButton : Method t Icon :=
  read (fun this =>
          let s := transformByQState this in
          if TransformByQStatus_strict_eq s TransformByQStatus_NotStarted
          then getIcon "vscode-play"
          else getIcon "vscode-stop-circle").
End WithIcons.

(** *** Calls *)

(** The transition setters, as calls. *)
Inductive Setter : Type :=
| SetToNotStarted
| SetToRunning
| SetToCancelled
| SetToFailed
| SetToSucceeded
| SetToPartiallySucceeded.

Definition call (c : Setter) : Method t unit :=
  match c with
  | SetToNotStarted => setToNotStarted
  | SetToRunning => setToRunning
  | SetToCancelled => setToCancelled
  | SetToFailed => setToFailed
  | SetToSucceeded => setToSucceeded
  | SetToPartiallySucceeded => setToPartiallySucceeded
  end.

(** The status a setter is named after. *)
Definition target (c : Setter) : TransformByQStatus :=
  match c with
  | SetToNotStarted => TransformByQStatus_NotStarted
  | SetToRunning => TransformByQStatus_Running
  | SetToCancelled => TransformByQStatus_Cancelled
  | SetToFailed => TransformByQStatus_Failed
  | SetToSucceeded => TransformByQStatus_Succeeded
  | SetToPartiallySucceeded => TransformByQStatus_PartiallySucceeded
  end.

(** A sequence of transition-setter calls on one object, first call first. *)
Fixpoint run (cs : list Setter) (this : t) : t :=
  match cs with
  | [] => this
  | c :: cs' => run cs' (after (call c) this)
  end.

(** The six state predicates, in declaration order. *)
Definition predicates (this : t) : list bool :=
  [result isNotStarted this; result isRunning this; result isCancelled this;
   result isFailed this; result isSucceeded this; result isPartiallySucceeded this].

(** The metadata setters, as calls with their arguments. *)
Inductive MetadataSetter : Type :=
| SetProjectName (name : string)
| SetProjectPath (path : string)
| SetJobId (id : string)
| SetSourceJDKVersionToJDK8
| SetSourceJDKVersionToJDK11
| SetTargetJDKVersionToJDK17
| SetPlanFilePath (filePath : string)
| SetPolledJobStatus (status : string)
| SetSummaryFilePath (filePath : string)
| SetJobFailureReason (reason : string).

Definition call_metadata (m : MetadataSetter) : Method t unit :=
  match m with
  | SetProjectName name => setProjectName name
  | SetProjectPath path => setProjectPath path
  | SetJobId id => setJobId id
  | SetSourceJDKVersionToJDK8 => setSourceJDKVersionToJDK8
  | SetSourceJDKVersionToJDK11 => setSourceJDKVersionToJDK11
  | SetTargetJDKVersionToJDK17 => setTargetJDKVersionToJDK17
  | SetPlanFilePath filePath => setPlanFilePath filePath
  | SetPolledJobStatus status => setPolledJobStatus status
  | SetSummaryFilePath filePath => setSummaryFilePath filePath
  | SetJobFailureReason reason => setJobFailureReason reason
  end.

(** The private fields, by name. *)
Inductive Field : Type :=
| Field_transformByQState
| Field_projectName
| Field_projectPath
| Field_jobId
| Field_sourceJDKVersion
| Field_targetJDKVersion
| Field_planFilePath
| Field_summaryFilePath
| Field_polledJobStatus
| Field_jobFailureReason.

Inductive FieldValue : Type :=
| OfStatus (s : TransformByQStatus)
| OfString (s : string)
| OfJDKVersion (v : JDKVersion).

(** [this.f], for a field name [f]. *)
Definition field (f : Field) (this : t) : FieldValue :=
  match f with
  | Field_transformByQState => OfStatus (transformByQState this)
  | Field_projectName => OfString (projectName this)
  | Field_projectPath => OfString (projectPath this)
  | Field_jobId => OfString (jobId this)
  | Field_sourceJDKVersion => OfJDKVersion (sourceJDKVersion this)
  | Field_targetJDKVersion => OfJDKVersion (targetJDKVersion this)
  | Field_planFilePath => OfString (planFilePath this)
  | Field_summaryFilePath => OfString (summaryFilePath this)
  | Field_polledJobStatus => OfString (polledJobStatus this)
  | Field_jobFailureReason => OfString (jobFailureReason this)
  end.

(** The methods that return something. *)
Inductive Getter : Type :=
| IsNotStarted
| IsRunning
| IsCancelled
| IsFailed
| IsSucceeded
| IsPartiallySucceeded
| GetProjectName
| GetProjectPath
| GetJobId
| GetSourceJDKVersion
| GetTargetJDKVersion
| GetStatus
| GetPolledJobStatus
| GetPlanFilePath
| GetSummaryFilePath
| GetJobFailureReason
| GetPrefixTextForButton
| GetIconForButton.

(** The field a metadata setter assigns, and the getter that returns it. *)
Definition own_field (m : MetadataSetter) : Field :=
  match m with
  | SetProjectName _ => Field_projectName
  | SetProjectPath _ => Field_projectPath
  | SetJobId _ => Field_jobId
  | SetSourceJDKVersionToJDK8 => Field_sourceJDKVersion
  | SetSourceJDKVersionToJDK11 => Field_sourceJDKVersion
  | SetTargetJDKVersionToJDK17 => Field_targetJDKVersion
  | SetPlanFilePath _ => Field_planFilePath
  | SetPolledJobStatus _ => Field_polledJobStatus
  | SetSummaryFilePath _ => Field_summaryFilePath
  | SetJobFailureReason _ => Field_jobFailureReason
  end.

Definition own_getter (m : MetadataSetter) : Getter :=
  match m with
  | SetProjectName _ => GetProjectName
  | SetProjectPath _ => GetProjectPath
  | SetJobId _ => GetJobId
  | SetSourceJDKVersionToJDK8 => GetSourceJDKVersion
  | SetSourceJDKVersionToJDK11 => GetSourceJDKVersion
  | SetTargetJDKVersionToJDK17 => GetTargetJDKVersion
  | SetPlanFilePath _ => GetPlanFilePath
  | SetPolledJobStatus _ => GetPolledJobStatus
  | SetSummaryFilePath _ => GetSummaryFilePath
  | SetJobFailureReason _ => GetJobFailureReason
  end.

(** Every public method of the class, as a call. *)
Inductive Call : Type :=
| Get (g : Getter)
| Transition (c : Setter)
| Metadata (m : MetadataSetter).

Section Calls.
Context {Icon : Type} (getIcon : string -> Icon).

Definition observe (g : Getter) : Method t (Value Icon) :=
  match g with
  | IsNotStarted => b <- isNotStarted ;; ret (VBool b)
  | IsRunning => b <- isRunning ;; ret (VBool b)
  | IsCancelled => b <- isCancelled ;; ret (VBool b)
  | IsFailed => b <- isFailed ;; ret (VBool b)
  | IsSucceeded => b <- isSucceeded ;; ret (VBool b)
  | IsPartiallySucceeded => b <- isPartiallySucceeded ;; ret (VBool b)
  | GetProjectName => s <- getProjectName ;; ret (VString s)
  | GetProjectPath => s <- getProjectPath ;; ret (VString s)
  | GetJobId => s <- getJobId ;; ret (VString s)
  | GetSourceJDKVersion => v <- getSourceJDKVersion ;; ret (VJDKVersion v)
  | GetTargetJDKVersion => v <- getTargetJDKVersion ;; ret (VJDKVersion v)
  | GetStatus => s <- getStatus ;; ret (VStatus s)
  | GetPolledJobStatus => s <- getPolledJobStatus ;; ret (VString s)
  | GetPlanFilePath => s <- getPlanFilePath ;; ret (VString s)
  | GetSummaryFilePath => s <- getSummaryFilePath ;; ret (VString s)
  | GetJobFailureReason => s <- getJobFailureReason ;; ret (VString s)
  | GetPrefixTextForButton => s <- getPrefixTextForButton ;; ret (VString s)
  | GetIconForButton => i <- getIconForButton getIcon ;; ret (VIcon i)
  end.

Definition invoke (c : Call) : Method t (Value Icon) :=
  match c with
  | Get g => observe g
  | Transition c => _ <- call c ;; ret VUndefined
  | Metadata m => _ <- call_metadata m ;; ret VUndefined
  end.

(** A sequence of arbitrary calls on one object, first call first. *)
Fixpoint session (cs : list Call) (this : t) : t :=
  match cs with
  | [] => this
  | c :: cs' => session cs' (after (invoke c) this)
  end.
End Calls.

End TransformByQState.

(** The module-level singleton. *)
Definition transformByQState : TransformByQState.t := TransformByQState.new.

(** ** Review status beside the controller *)

(** Modelled from the spec: where the review status of a transformation is
    kept.  [TransformByQState] declares no field of type
    [TransformByQReviewStatus]; the status is tracked separately from the job
    state, by code that is not in this file.  A configuration is the
    controller object together with that separately held status. *)
Record Configuration : Type := mkConfiguration {
  controller : TransformByQState.t;
  reviewStatus : TransformByQReviewStatus
}.

(** A method call on the controller of a configuration: the method sees
    [this] only, and whatever it leaves in [this] is put back. *)
Definition on_controller {A : Type} (m : Method TransformByQState.t A) : Method Configuration A :=
  fun cfg =>
    let (a, this') := m (controller cfg) in
    (a, {| controller := this'; reviewStatus := reviewStatus cfg |}).

(** ** Stopped-by-user errors *)

(** The second argument of the [ToolkitError] constructor, an object literal
    whose [cancelled] property may be absent. *)
Record ErrorInformation : Type := mkErrorInformation {
  info_cancelled : option bool
}.

Module ToolkitError.

(** Modelled from the spec: the base class [ToolkitError] of [shared/errors],
    which is not in this file.  An instance carries its message and the
    [cancelled] marker and no other payload; the marker is [true] when the
    error was built with [cancelled: true] and [false] for a plain failure. *)
Record t : Type := mk {
  message : string;
  cancelled : bool
}.

(** Modelled from the spec: the constructor [ToolkitError(message, info)]
    keeps the message and takes the marker from [info]. *)
Definition new (msg : string) (info : ErrorInformation) : t :=
  {| message := msg;
     cancelled := match info_cancelled info with
                  | Some b => b
                  | None => false
                  end |}.

End ToolkitError.

(** The classes of this file that extend [ToolkitError]. *)
Inductive StoppedError : Type :=
| CodeScanStoppedError
| TransformByQStoppedError.

(** [new CodeScanStoppedError()]: the constructor takes no argument and calls
    [super] with a fixed message and [{ cancelled: true }]. *)
Definition CodeScanStoppedError_new : ToolkitError.t :=
  ToolkitError.new "Security scan stopped by user." {| info_cancelled := Some true |}.

(** [new TransformByQStoppedError()]. *)
Definition TransformByQStoppedError_new : ToolkitError.t :=
  ToolkitError.new "Transform by Q stopped by user." {| info_cancelled := Some true |}.

Definition construct (c : StoppedError) : ToolkitError.t :=
  match c with
  | CodeScanStoppedError => CodeScanStoppedError_new
  | TransformByQStoppedError => TransformByQStoppedError_new
  end.

(** ** Scenarios *)

(** Calling a method twice in a row, keeping both results. *)
Definition twice {S A : Type} (m : Method S A) : Method S (A * A) :=
  x <- m ;; y <- m ;; ret (x, y).

(** A scan as its driver sees it: start and look, request the stop and look,
    resolve and look.  The results of the four predicate calls are kept in
    the order of the calls. *)
Definition scan_scenario : Method CodeScanState.t (bool * bool * bool * bool) :=
  _ <- CodeScanState.setToRunning ;;
  running <- CodeScanState.isRunning ;;
  _ <- CodeScanState.setToCancelling ;;
  cancelling <- CodeScanState.isCancelling ;;
  still_running <- CodeScanState.isRunning ;;
  _ <- CodeScanState.setToNotStarted ;;
  not_started <- CodeScanState.isNotStarted ;;
  ret (running, cancelling, still_running, not_started).

(** The versions a controller can hold: target JDK17, source JDK8 or JDK11. *)
Definition versions_ok (this : TransformByQState.t) : Prop :=
  TransformByQState.targetJDKVersion this = JDK17 /\
  (TransformByQState.sourceJDKVersion this = JDK8 \/
   TransformByQState.sourceJDKVersion this = JDK11).

(** ** What a call assigns *)

Module TransformByQCalls.
Import TransformByQState.

Definition Field_eqb (a b : Field) : bool :=
  match a, b with
  | Field_transformByQState, Field_transformByQState
  | Field_projectName, Field_projectName
  | Field_projectPath, Field_projectPath
  | Field_jobId, Field_jobId
  | Field_sourceJDKVersion, Field_sourceJDKVersion
  | Field_targetJDKVersion, Field_targetJDKVersion
  | Field_planFilePath, Field_planFilePath
  | Field_summaryFilePath, Field_summaryFilePath
  | Field_polledJobStatus, Field_polledJobStatus
  | Field_jobFailureReason, Field_jobFailureReason => true
  | _, _ => false
  end.

(** The assignment in the body of a method, as the field and the value
    assigned; a method that only returns something has none. *)
Definition assignment (c : Call) : option (Field * FieldValue) :=
  match c with
  | Get _ => None
  | Transition s => Some (Field_transformByQState, OfStatus (target s))
  | Metadata (SetProjectName name) => Some (Field_projectName, OfString name)
  | Metadata (SetProjectPath path) => Some (Field_projectPath, OfString path)
  | Metadata (SetJobId id) => Some (Field_jobId, OfString id)
  | Metadata SetSourceJDKVersionToJDK8 => Some (Field_sourceJDKVersion, OfJDKVersion JDK8)
  | Metadata SetSourceJDKVersionToJDK11 => Some (Field_sourceJDKVersion, OfJDKVersion JDK11)
  | Metadata SetTargetJDKVersionToJDK17 => Some (Field_targetJDKVersion, OfJDKVersion JDK17)
  | Metadata (SetPlanFilePath filePath) => Some (Field_planFilePath, OfString filePath)
  | Metadata (SetPolledJobStatus status) => Some (Field_polledJobStatus, OfString status)
  | Metadata (SetSummaryFilePath filePath) => Some (Field_summaryFilePath, OfString filePath)
  | Metadata (SetJobFailureReason reason) => Some (Field_jobFailureReason, OfString reason)
  end.

(** The value the latest call of a sequence (first call first) assigns to
    field [f], if any call of the sequence assigns to [f]. *)
Fixpoint last_assigned (f : Field) (calls : list Call) : option FieldValue :=
  match calls with
  | [] => None
  | c :: later =>
      match last_assigned f later with
      | Some v => Some v
      | None =>
          match assignment c with
          | Some (f', v) => if Field_eqb f f' then Some v else None
          | None => None
          end
      end
  end.

(** Calls of methods that assign to a field. *)
Definition assigns (c : Call) : bool :=
  match c with
  | Get _ => false
  | Transition _ => true
  | Metadata _ => true
  end.

End TransformByQCalls.

Module CodeScanCalls.
Import CodeScanState.

Definition assigns (c : Call) : bool :=
  match c with
  | Get _ => false
  | Set_ _ => true
  end.

(** The status the latest setter call of a sequence is named after. *)
Fixpoint last_assigned (calls : list Call) : option CodeScanStatus :=
  match calls with
  | [] => None
  | c :: later =>
      match last_assigned later with
      | Some s => Some s
      | None =>
          match c with
          | Set_ s => Some (target s)
          | Get _ => None
          end
      end
  end.

End CodeScanCalls.

(** ** Results of code that can throw *)

(** A call either returns a value or throws an [Error] with a message; a
    rejected promise is a throw at the [await]. *)
Inductive Outcome (A : Type) : Type :=
| Return (a : A)
| Throw (message : string).

Arguments Return {A} a.
Arguments Throw {A} message.

(** ** [class CodeSuggestionsState] *)

Module CodeSuggestionsState.

Section WithMemento.
(** [vscode.Memento], the key of [./constants] and the two helpers of
    [util/commonUtil] are taken as given.  [get] returns what is stored under
    the key, [undefined] (here [None]) when nothing is.  [set] stores a value;
    it gives back the memento as it is afterwards and, when the update is
    rejected, the reason. *)
Context {Memento : Type}
        (autoTriggerEnabledKey : string)
        (get : string -> Memento -> option bool)
        (set : string -> bool -> Memento -> Memento * option string).

(** The private fields.  The memento is held by reference and its content
    changes under [set], so it is part of the state; [fired] is every value
    passed to [#onDidChangeState.fire], in the order of the calls, which is
    what the listeners of [onDidChangeState] get to see. *)
Record t : Type := mk {
  context : Memento;
  fallback : bool;
  fired : list bool
}.

(** The constructor, with both arguments given. *)
Definition new (context : Memento) (fallback : bool) : t :=
  {| context := context; fallback := fallback; fired := [] |}.

Definition isSuggestionsEnabled : Method t bool :=
  read (fun this =>
          match get autoTriggerEnabledKey (context this) with
          | Some isEnabled => isEnabled
          | None => fallback this
          end).

(** [async toggleSuggestions()], run to completion: the state is read, the
    update awaited, and only then is the event fired. *)
Definition toggleSuggestions : Method t (Outcome bool) :=
  fun this =>
    let autoTriggerEnabled := result isSuggestionsEnabled this in
    let toSet := negb autoTriggerEnabled in
    match set autoTriggerEnabledKey toSet (context this) with
    | (context', Some reason) =>
        (Throw reason,
         {| context := context'; fallback := fallback this; fired := fired this |})
    | (context', None) =>
        (Return toSet,
         {| context := context'; fallback := fallback this; fired := fired this ++ [toSet] |})
    end.

(** [async setSuggestionsEnabled(isEnabled)]. *)
Definition setSuggestionsEnabled (isEnabled : bool) : Method t (Outcome unit) :=
  fun this =>
    if negb (Bool.eqb (result isSuggestionsEnabled this) isEnabled)
    then match toggleSuggestions this with
         | (Return _, this') => (Return tt, this')
         | (Throw reason, this') => (Throw reason, this')
         end
    else (Return tt, this).

End WithMemento.

Arguments t : clear implicits.
Arguments context {Memento} _.
Arguments fallback {Memento} _.
Arguments fired {Memento} _.

End CodeSuggestionsState.

(** A memento kept as a list of stored pairs, latest first, whose updates
    always go through. *)
Module ListMemento.

Definition t : Type := list (string * bool).

Fixpoint get (key : string) (m : t) : option bool :=
  match m with
  | [] => None
  | (k, v) :: rest => if String.eqb k key then Some v else get key rest
  end.

Definition set (key : string) (value : bool) (m : t) : t * option string :=
  ((key, value) :: m, None).

End ListMemento.

(** ** SAM debug configurations: [lambda/local/debugConfiguration] *)

Module DebugConfiguration.

(** [config.invokeTarget].  The properties of [CodeTargetProperties]
    ([projectRoot], [lambdaHandler]) and of [TemplateTargetProperties]
    ([samTemplatePath], [samTemplateResource]) side by side: the casts
    [as CodeTargetProperties] and [as TemplateTargetProperties] check nothing,
    and every function below reads a property only under the [target] it
    belongs to. *)
Record InvokeTarget : Type := mkInvokeTarget {
  target : string;
  projectRoot : string;
  lambdaHandler : string;
  samTemplatePath : string;
  samTemplateResource : string
}.

(** What the template registry hands out is parsed from files, and the
    functions below take it apart with property accesses and truthiness
    tests that no type checks at run time.  So it is kept as JavaScript
    values: [undefined], [null], a string, an object or function (known by
    what a property access on it gives, inherited properties included, with
    [undefined] for a property it lacks), or another primitive (a boolean,
    number, bigint or symbol, known by its truthiness and by what a property
    access on it gives). *)
Inductive JSValue : Type :=
| JSUndefined
| JSNull
| JSString (s : string)
| JSObject (member : string -> JSValue)
| JSPrimitive (truthy : bool) (member : string -> JSValue).

(** [!!v]: [undefined], [null] and the empty string are falsy, objects and
    functions are truthy. *)
Definition truthy (v : JSValue) : bool :=
  match v with
  | JSUndefined => false
  | JSNull => false
  | JSString s => negb (String.eqb s "")
  | JSObject _ => true
  | JSPrimitive t _ => t
  end.

(** A value that is not a string: [path.resolve] throws when handed one. *)
Definition not_a_string (v : JSValue) : Prop := forall s : string, v <> JSString s.

(** The second parameter of [assertTargetKind], of type ['code' | 'template']. *)
Inductive ExpectedTarget : Type :=
| ExpectCode
| ExpectTemplate.

Definition ExpectedTarget_value (e : ExpectedTarget) : string :=
  match e with
  | ExpectCode => "code"
  | ExpectTemplate => "template"
  end.

(** What the functions take from elsewhere: the types of workspace folders
    and of configurations, and the helpers they call.
    [getRegisteredTemplate p] stands for
    [CloudFormationTemplateRegistry.getRegistry().getRegisteredTemplate(p)?.template],
    which is [undefined] for a path that is not registered;
    [stringMember s key] for the property access [s[key]] on a string;
    [resolve] for [path.resolve] on two strings and [invalidPathArgument v]
    for the message of the [TypeError] that [path.resolve] throws when handed
    [v], which is not a string; [stringifyConfig] and [stringify] for the two
    uses of [JSON.stringify]; [invalidTargetMessage] for the localized text
    shown for an unsupported target. *)
Class Host (Folder Config : Type) : Type := {
  invokeTarget : Config -> InvokeTarget;
  tryGetAbsolutePath : option Folder -> string -> string;
  normalize : string -> string;
  dirname : string -> string;
  resolve : string -> string -> string;
  invalidPathArgument : JSValue -> string;
  getRegisteredTemplate : string -> JSValue;
  stringMember : string -> string -> JSValue;
  stringifyConfig : Config -> string;
  stringify : JSValue -> string;
  invalidTargetMessage : string
}.

Section Functions.
Context {Folder Config : Type} {host : Host Folder Config}.

(** [v?.[key]]: [undefined] when [v] is [undefined] or [null], and the
    property access [v[key]] otherwise.  Where the code writes [v[key]] or
    [v.key] without the question mark, it has tested [v] truthy before, and
    the two agree. *)
Definition member (v : JSValue) (key : string) : JSValue :=
  match v with
  | JSUndefined => JSUndefined
  | JSNull => JSUndefined
  | JSString s => stringMember s key
  | JSObject m => m key
  | JSPrimitive _ m => m key
  end.

Definition assertTargetKind (config : Config) (expectedTarget : ExpectedTarget) : Outcome unit :=
  if negb (String.eqb (target (invokeTarget config)) (ExpectedTarget_value expectedTarget))
  then Throw ("SAM debug: invalid config (expected target: "
              ++ ExpectedTarget_value expectedTarget ++ "): " ++ stringifyConfig config)
  else Return tt.

(** Gets a template object from the given config. *)
Definition getTemplate (folder : option Folder) (config : Config) : JSValue :=
  if negb (String.eqb (target (invokeTarget config)) "template") then JSUndefined
  else
    let templateInvoke := invokeTarget config in
    let fullPath := tryGetAbsolutePath folder (samTemplatePath templateInvoke) in
    getRegisteredTemplate fullPath.

(** Gets the template resources object specified by the
    [samTemplateResource] field.  The three tests are truthiness tests, and
    [Resources[samTemplateResource]] is a property access: what it gives is
    returned when truthy, whatever it is. *)
Definition getTemplateResource (folder : option Folder) (config : Config) : Outcome JSValue :=
  if negb (String.eqb (target (invokeTarget config)) "template") then Return JSUndefined
  else
    let templateInvoke := invokeTarget config in
    let cfnTemplate := getTemplate folder config in
    if negb (truthy cfnTemplate)
    then Throw ("template not found (not registered?): " ++ samTemplatePath templateInvoke)
    else if negb (truthy (member cfnTemplate "Resources"))
    then Throw ("no Resources in template: " ++ samTemplatePath templateInvoke)
    else
      let templateResource :=
        member (member cfnTemplate "Resources") (samTemplateResource templateInvoke) in
      if negb (truthy templateResource)
      then Throw ("template Resources object does not contain key '"
                  ++ samTemplateResource templateInvoke ++ "':"
                  ++ " " ++ stringify (member cfnTemplate "Resources"))
      else Return templateResource.

(** Gets the "code root" as an absolute path.  [path.dirname] returns a
    string, so [templateDir ?? ''] is [templateDir].  [path.resolve] checks
    its arguments from the last one: handed a [CodeUri] that is not a string
    (one that is missing, say) it throws a [TypeError]. *)
Definition getCodeRoot (folder : option Folder) (config : Config) : Outcome (option string) :=
  let t := target (invokeTarget config) in
  if String.eqb t "code" then
    let codeInvoke := invokeTarget config in
    Return (Some (normalize (tryGetAbsolutePath folder (projectRoot codeInvoke))))
  else if String.eqb t "template" then
    let templateInvoke := invokeTarget config in
    match getTemplateResource folder config with
    | Throw message => Throw message
    | Return templateResource =>
        if negb (truthy (member templateResource "Properties")) then Return None
        else
          let fullPath := tryGetAbsolutePath folder (samTemplatePath templateInvoke) in
          let templateDir := dirname fullPath in
          match member (member templateResource "Properties") "CodeUri" with
          | JSString codeUri => Return (Some (normalize (resolve templateDir codeUri)))
          | notAString => Throw (invalidPathArgument notAString)
          end
    end
  else Throw "invalid invokeTarget".

(** Gets the lambda handler name specified in the given config.  The second
    component is what the call showed with [vscode.window.showErrorMessage].
    The declared result is [string]; in the template case the value is
    [templateResource?.Properties?.Handler], whatever that is. *)
Definition getHandlerName (folder : option Folder) (config : Config)
  : Outcome JSValue * list string :=
  let t := target (invokeTarget config) in
  if String.eqb t "code" then
    let codeInvoke := invokeTarget config in
    (Return (JSString (lambdaHandler codeInvoke)), [])
  else if String.eqb t "template" then
    match getTemplateResource folder config with
    | Throw message => (Throw message, [])
    | Return templateResource =>
        (Return (member (member templateResource "Properties") "Handler"), [])
    end
  else (Return (JSString ""), [invalidTargetMessage]).

End Functions.

End DebugConfiguration.

(** A small host for trying the functions.  One template is registered,
    "/ws/template.yaml"; its [Resources] hold "Fn" (a function with
    [Handler] and [CodeUri]), "Image" (properties without [CodeUri]) and
    "Bare" (no [Properties]), an entry "Off" that is [null], and, as every
    object does, the inherited member "constructor".  Paths are joined with a
    slash, and [normalize] turns backslashes into slashes. *)
Module ExampleHost.
Import DebugConfiguration.

Definition object (members : list (string * JSValue)) : JSValue :=
  JSObject (fun key =>
              match find (fun entry => String.eqb (fst entry) key) members with
              | Some entry => snd entry
              | None => JSUndefined
              end).

Definition Object_constructor : JSValue := object [].

Definition fn_resource : JSValue :=
  object [("Type", JSString "AWS::Serverless::Function");
          ("Properties", object [("Handler", JSString "app.handler");
                                 ("CodeUri", JSString "src")])].

Definition image_resource : JSValue :=
  object [("Type", JSString "AWS::Serverless::Function");
          ("Properties", object [("PackageType", JSString "Image")])].

Definition bare_resource : JSValue :=
  object [("Type", JSString "AWS::Serverless::Function")].

Definition resources : JSValue :=
  object [("Fn", fn_resource); ("Image", image_resource); ("Bare", bare_resource);
          ("Off", JSNull); ("constructor", Object_constructor)].

Definition template : JSValue := object [("Resources", resources)].

Definition slashes (c : Ascii.ascii) : Ascii.ascii :=
  if Ascii.eqb c "092"%char then "/"%char else c.

Fixpoint map_string (f : Ascii.ascii -> Ascii.ascii) (s : string) : string :=
  match s with
  | EmptyString => EmptyString
  | String c rest => String (f c) (map_string f rest)
  end.

Definition host : Host unit InvokeTarget :=
  {| invokeTarget := fun config => config;
     tryGetAbsolutePath := fun _ p => "/ws/" ++ p;
     normalize := map_string slashes;
     dirname := fun _ => "/ws";
     resolve := fun dir p => dir ++ "/" ++ p;
     invalidPathArgument := fun _ => "The paths[1] argument must be of type string.";
     getRegisteredTemplate := fun p =>
       if String.eqb p "/ws/template.yaml" then template else JSUndefined;
     stringMember := fun _ _ => JSUndefined;
     stringifyConfig := fun config => target config;
     stringify := fun _ => "{Fn, Image, Bare, Off}";
     invalidTargetMessage := "Debug Configuration has an unsupported target type." |}.

Definition code_config (root : string) : InvokeTarget :=
  {| target := "code"; projectRoot := root; lambdaHandler := "index.handler";
     samTemplatePath := ""; samTemplateResource := "" |}.

Definition template_config (resource : string) : InvokeTarget :=
  {| target := "template"; projectRoot := ""; lambdaHandler := "";
     samTemplatePath := "template.yaml"; samTemplateResource := resource |}.

End ExampleHost.

(** * Properties *)

(** ** Strict equality on the enums decides equality of members *)

Lemma CodeScanStatus_strict_eq_spec (a b : CodeScanStatus) :
  CodeScanStatus_strict_eq a b = true <-> a = b.
Proof.
  split.
  - destruct a, b; cbn; intros H; try reflexivity; discriminate H.
  - intros ->. unfold CodeScanStatus_strict_eq. apply Nat.eqb_refl.
Qed.

Lemma TransformByQStatus_strict_eq_spec (a b : TransformByQStatus) :
  TransformByQStatus_strict_eq a b = true <-> a = b.
Proof.
  split.
  - destruct a, b; cbn; intros H; try reflexivity; discriminate H.
  - intros ->. unfold TransformByQStatus_strict_eq. apply String.eqb_refl.
Qed.

(** ** Sequences of calls *)

Lemma CodeScanState_run_app (xs ys : list CodeScanState.Setter) (this : CodeScanState.t) :
  CodeScanState.run (xs ++ ys) this = CodeScanState.run ys (CodeScanState.run xs this).
Proof.
  revert this. induction xs as [|x xs IH]; intros this; cbn; [reflexivity | apply IH].
Qed.

Lemma TransformByQState_run_app (xs ys : list TransformByQState.Setter) (this : TransformByQState.t) :
  TransformByQState.run (xs ++ ys) this = TransformByQState.run ys (TransformByQState.run xs this).
Proof.
  revert this. induction xs as [|x xs IH]; intros this; cbn; [reflexivity | apply IH].
Qed.

Lemma TransformByQState_call_status (c : TransformByQState.Setter) (this : TransformByQState.t) :
  TransformByQState.transformByQState (after (TransformByQState.call c) this)
  = TransformByQState.target c.
Proof. destruct c; reflexivity. Qed.

Lemma CodeScanState_call_status (c : CodeScanState.Setter) (this : CodeScanState.t) :
  after (CodeScanState.call c) this = {| CodeScanState.codeScanState := CodeScanState.target c |}.
Proof. destruct c; reflexivity. Qed.

(** C1. After any sequence of transition-setter calls, on either controller
    and from any starting state, the status observed is the one the last
    setter of the sequence is named after, whatever was called before it:
    the scan controller's three predicates answer for that status, and the
    transform controller's [getStatus] returns it and its six predicates
    answer for it.  In the scan scenario, [isRunning] is true after
    [setToRunning]; after [setToCancelling], [isCancelling] is true and
    [isRunning] is false; after [setToNotStarted], [isNotStarted] is true. *)
Theorem last_setter_wins :
  (forall (before : list CodeScanState.Setter) (last : CodeScanState.Setter)
          (this : CodeScanState.t),
      let this' := CodeScanState.run (before ++ [last]) this in
      this' = after (CodeScanState.call last) CodeScanState.new /\
      (result CodeScanState.isNotStarted this' = true
       <-> CodeScanState.target last = CodeScanStatus_NotStarted) /\
      (result CodeScanState.isRunning this' = true
       <-> CodeScanState.target last = CodeScanStatus_Running) /\
      (result CodeScanState.isCancelling this' = true
       <-> CodeScanState.target last = CodeScanStatus_Cancelling)) /\
  (forall (before : list TransformByQState.Setter) (last : TransformByQState.Setter)
          (this : TransformByQState.t),
      let this' := TransformByQState.run (before ++ [last]) this in
      result TransformByQState.getStatus this' = TransformByQState.target last /\
      (result TransformByQState.isNotStarted this' = true
       <-> TransformByQState.target last = TransformByQStatus_NotStarted) /\
      (result TransformByQState.isRunning this' = true
       <-> TransformByQState.target last = TransformByQStatus_Running) /\
      (result TransformByQState.isCancelled this' = true
       <-> TransformByQState.target last = TransformByQStatus_Cancelled) /\
      (result TransformByQState.isFailed this' = true
       <-> TransformByQState.target last = TransformByQStatus_Failed) /\
      (result TransformByQState.isSucceeded this' = true
       <-> TransformByQState.target last = TransformByQStatus_Succeeded) /\
      (result TransformByQState.isPartiallySucceeded this' = true
       <-> TransformByQState.target last = TransformByQStatus_PartiallySucceeded)) /\
  (forall this : CodeScanState.t,
      result scan_scenario this = (true, true, false, true) /\
      after scan_scenario this = CodeScanState.new).
Proof.
  split; [|split].
  - intros before last this this'. subst this'.
    rewrite CodeScanState_run_app. cbn [CodeScanState.run].
    rewrite !CodeScanState_call_status.
    split; [reflexivity|].
    unfold result, CodeScanState.isNotStarted, CodeScanState.isRunning,
      CodeScanState.isCancelling, read; cbn [fst CodeScanState.codeScanState].
    rewrite !CodeScanStatus_strict_eq_spec. tauto.
  - intros before last this this'. subst this'.
    rewrite TransformByQState_run_app. cbn [TransformByQState.run].
    unfold result, TransformByQState.getStatus, TransformByQState.isNotStarted,
      TransformByQState.isRunning, TransformByQState.isCancelled,
      TransformByQState.isFailed, TransformByQState.isSucceeded,
      TransformByQState.isPartiallySucceeded, read; cbn [fst].
    rewrite !TransformByQState_call_status.
    rewrite !TransformByQStatus_strict_eq_spec. tauto.
  - intros this. split; reflexivity.
Qed.

(** ** Presentation *)

Section Presentation.
Context {Icon : Type} (getIcon : string -> Icon).

(** A method that only reads: it hands [this] back as it got it, and asking
    again gives the same answer. *)
Lemma read_only_twice {S A : Type} (m : Method S A) (this : S) (r : A) :
  m this = (r, this) -> twice m this = ((r, r), this).
Proof.
  intros H. unfold twice, bind, ret. rewrite H. rewrite H. reflexivity.
Qed.

(** C2. On both controllers the button text and the button icon are
    functions of the job state and of nothing else: there is one table from
    states to non-empty texts and one from states to non-empty icon names
    such that, for every object, [getPrefixTextForButton] returns the text of
    the object's state and [getIconForButton] returns what [getIcon] gives for
    the icon name of the object's state (never [undefined]), whatever the
    other fields hold.  Each call leaves the object as it was, and two calls
    in a row return the same result twice. *)
Theorem presentation_pure_total :
  (exists label icon : CodeScanStatus -> string,
      (forall s : CodeScanStatus, label s <> "" /\ icon s <> "") /\
      forall this : CodeScanState.t,
        let s := CodeScanState.codeScanState this in
        CodeScanState.getPrefixTextForButton this = (Some (label s), this) /\
        twice CodeScanState.getPrefixTextForButton this
        = ((Some (label s), Some (label s)), this) /\
        CodeScanState.getIconForButton getIcon this = (Some (getIcon (icon s)), this) /\
        twice (CodeScanState.getIconForButton getIcon) this
        = ((Some (getIcon (icon s)), Some (getIcon (icon s))), this)) /\
  (exists label icon : TransformByQStatus -> string,
      (forall s : TransformByQStatus, label s <> "" /\ icon s <> "") /\
      forall this : TransformByQState.t,
        let s := result TransformByQState.getStatus this in
        TransformByQState.getPrefixTextForButton this = (label s, this) /\
        twice TransformByQState.getPrefixTextForButton this = ((label s, label s), this) /\
        TransformByQState.getIconForButton getIcon this = (getIcon (icon s), this) /\
        twice (TransformByQState.getIconForButton getIcon) this
        = ((getIcon (icon s), getIcon (icon s)), this)).
Proof.
  split.
  - exists (fun s => match s with
                     | CodeScanStatus_NotStarted => "Run"
                     | CodeScanStatus_Running => "Stop"
                     | CodeScanStatus_Cancelling => "Stopping"
                     end),
           (fun s => match s with
                     | CodeScanStatus_NotStarted => "vscode-debug-alt-small"
                     | CodeScanStatus_Running => "vscode-stop-circle"
                     | CodeScanStatus_Cancelling => "vscode-icons:loading~spin"
                     end).
    split.
    + intros [ | | ]; split; discriminate.
    + intros [[ | | ]]; cbv zeta; repeat split.
  - exists (fun s => match s with
                     | TransformByQStatus_NotStarted => "Run"
                     | TransformByQStatus_Cancelled => "Stopping"
                     | _ => "Stop"
                     end),
           (fun s => match s with
                     | TransformByQStatus_NotStarted => "vscode-play"
                     | _ => "vscode-stop-circle"
                     end).
    split.
    + intros [ | | | | | ]; split; discriminate.
    + intros this. cbv zeta.
      assert (L : TransformByQState.getPrefixTextForButton this
                  = (match result TransformByQState.getStatus this with
                     | TransformByQStatus_NotStarted => "Run"
                     | TransformByQStatus_Cancelled => "Stopping"
                     | _ => "Stop"
                     end, this)).
      { destruct this as [[ | | | | | ] ? ? ? ? ? ? ? ? ?]; reflexivity. }
      assert (I : TransformByQState.getIconForButton getIcon this
                  = (getIcon match result TransformByQState.getStatus this with
                             | TransformByQStatus_NotStarted => "vscode-play"
                             | _ => "vscode-stop-circle"
                             end, this)).
      { destruct this as [[ | | | | | ] ? ? ? ? ? ? ? ? ?]; reflexivity. }
      split; [exact L |]. split; [apply read_only_twice; exact L |].
      split; [exact I | apply read_only_twice; exact I].
Qed.

(** C6. The scan controller shows: when not started, the text "Run" and
    the icon named vscode-debug-alt-small (start); when running, "Stop" and
    vscode-stop-circle (stop); when cancelling, "Stopping" and
    vscode-icons:loading~spin (loading spinner). *)
Theorem CodeScanState_presentation (this : CodeScanState.t) :
  result CodeScanState.getPrefixTextForButton this
  = match CodeScanState.codeScanState this with
    | CodeScanStatus_NotStarted => Some "Run"
    | CodeScanStatus_Running => Some "Stop"
    | CodeScanStatus_Cancelling => Some "Stopping"
    end /\
  result (CodeScanState.getIconForButton getIcon) this
  = match CodeScanState.codeScanState this with
    | CodeScanStatus_NotStarted => Some (getIcon "vscode-debug-alt-small")
    | CodeScanStatus_Running => Some (getIcon "vscode-stop-circle")
    | CodeScanStatus_Cancelling => Some (getIcon "vscode-icons:loading~spin")
    end.
Proof. destruct this as [[ | | ]]; split; reflexivity. Qed.

(** C3, as the code has it.  The transform controller shows "Run" with the
    icon named vscode-play (start) when not started, and the icon named
    vscode-stop-circle (stop) in each of the five other states; the text is
    "Stop" when running, failed, succeeded or partially succeeded, and
    "Stopping" when cancelled. *)
Theorem TransformByQState_presentation (this : TransformByQState.t) :
  result TransformByQState.getPrefixTextForButton this
  = match result TransformByQState.getStatus this with
    | TransformByQStatus_NotStarted => "Run"
    | TransformByQStatus_Running => "Stop"
    | TransformByQStatus_Cancelled => "Stopping"
    | TransformByQStatus_Failed => "Stop"
    | TransformByQStatus_Succeeded => "Stop"
    | TransformByQStatus_PartiallySucceeded => "Stop"
    end /\
  result (TransformByQState.getIconForButton getIcon) this
  = match result TransformByQState.getStatus this with
    | TransformByQStatus_NotStarted => getIcon "vscode-play"
    | TransformByQStatus_Running => getIcon "vscode-stop-circle"
    | TransformByQStatus_Cancelled => getIcon "vscode-stop-circle"
    | TransformByQStatus_Failed => getIcon "vscode-stop-circle"
    | TransformByQStatus_Succeeded => getIcon "vscode-stop-circle"
    | TransformByQStatus_PartiallySucceeded => getIcon "vscode-stop-circle"
    end.
Proof.
  destruct this as [[ | | | | | ] ? ? ? ? ? ? ? ? ?]; split; reflexivity.
Qed.

End Presentation.

(** C3, as stated, fails on a cancelled job: its state is not NotStarted,
    yet its button text is "Stopping", not "Stop". *)
Lemma TransformByQState_cancelled_label_not_Stop :
  let this := after TransformByQState.setToCancelled TransformByQState.new in
  result TransformByQState.getStatus this = TransformByQStatus_Cancelled /\
  result TransformByQState.isNotStarted this = false /\
  result TransformByQState.getPrefixTextForButton this = "Stopping" /\
  result TransformByQState.getPrefixTextForButton this <> "Stop".
Proof. cbn. repeat split. discriminate. Qed.

(** ** A fresh transform controller *)

Lemma JDKVersion_numbers :
  JDKVersion_number JDK8 = 8 /\ JDKVersion_number JDK11 = 11 /\ JDKVersion_number JDK17 = 17.
Proof. repeat split; reflexivity. Qed.

Lemma JDK8_lowest : JDKVersion_lowest JDK8.
Proof. intros [ | | ]; cbn; lia. Qed.

(** C4, as the code has it.  On a freshly constructed transform controller
    [isNotStarted] is true, each of the seven string getters returns the
    empty string, [getSourceJDKVersion] returns JDK8, the lowest member of
    [JDKVersion], and [getTargetJDKVersion] returns JDK17; every getter
    returns (none throws) and leaves the object fresh. *)
Theorem fresh_TransformByQState :
  TransformByQState.isNotStarted TransformByQState.new = (true, TransformByQState.new) /\
  TransformByQState.getProjectName TransformByQState.new = ("", TransformByQState.new) /\
  TransformByQState.getProjectPath TransformByQState.new = ("", TransformByQState.new) /\
  TransformByQState.getJobId TransformByQState.new = ("", TransformByQState.new) /\
  TransformByQState.getPlanFilePath TransformByQState.new = ("", TransformByQState.new) /\
  TransformByQState.getSummaryFilePath TransformByQState.new = ("", TransformByQState.new) /\
  TransformByQState.getPolledJobStatus TransformByQState.new = ("", TransformByQState.new) /\
  TransformByQState.getJobFailureReason TransformByQState.new = ("", TransformByQState.new) /\
  TransformByQState.getSourceJDKVersion TransformByQState.new = (JDK8, TransformByQState.new) /\
  JDKVersion_lowest JDK8 /\
  TransformByQState.getTargetJDKVersion TransformByQState.new = (JDK17, TransformByQState.new) /\
  TransformByQState.getStatus TransformByQState.new
  = (TransformByQStatus_NotStarted, TransformByQState.new).
Proof.
  repeat (split; [reflexivity |]).
  split; [exact JDK8_lowest |].
  split; reflexivity.
Qed.

(** C4, as stated, fails for the target version: on a fresh controller
    [getTargetJDKVersion] returns JDK17, which is not the lowest member of
    [JDKVersion] (JDK8 and JDK11 are lower), so the two version getters do
    not both return the lowest member. *)
Lemma fresh_target_not_lowest :
  result TransformByQState.getTargetJDKVersion TransformByQState.new = JDK17 /\
  JDKVersion_number JDK8 < JDKVersion_number JDK17 /\
  ~ (JDKVersion_lowest (result TransformByQState.getSourceJDKVersion TransformByQState.new) /\
     JDKVersion_lowest (result TransformByQState.getTargetJDKVersion TransformByQState.new)).
Proof.
  split; [reflexivity |]. split; [cbn; lia |].
  intros [_ H]. specialize (H JDK8). cbn in H. lia.
Qed.

(** ** Frames *)

(** C5. A metadata setter of the transform controller, called with any
    argument in any state, changes its own field only: every other field
    (the job state included) keeps its value, and every getter other than the
    one that returns the setter's field (state predicates, button text and
    icon included) returns what it returned before. *)
Theorem metadata_setter_frame
  {Icon : Type} (getIcon : string -> Icon)
  (m : TransformByQState.MetadataSetter) (this : TransformByQState.t)
  (f : TransformByQState.Field) (g : TransformByQState.Getter) :
  f <> TransformByQState.own_field m ->
  g <> TransformByQState.own_getter m ->
  let this' := after (TransformByQState.call_metadata m) this in
  TransformByQState.field f this' = TransformByQState.field f this /\
  result (TransformByQState.observe getIcon g) this'
  = result (TransformByQState.observe getIcon g) this.
Proof.
  intros Hf Hg this'. subst this'. split.
  - destruct m, f; first [reflexivity | exfalso; apply Hf; reflexivity].
  - destruct m, g; first [reflexivity | exfalso; apply Hg; reflexivity].
Qed.

Lemma metadata_setter_frame_witness :
  TransformByQState.Field_projectName
  <> TransformByQState.own_field (TransformByQState.SetJobId "job-123") /\
  TransformByQState.IsRunning
  <> TransformByQState.own_getter (TransformByQState.SetJobId "job-123") /\
  TransformByQState.field TransformByQState.Field_projectName
    (after (TransformByQState.call_metadata (TransformByQState.SetJobId "job-123"))
       (after TransformByQState.setToRunning TransformByQState.new))
  = TransformByQState.field TransformByQState.Field_projectName
      (after TransformByQState.setToRunning TransformByQState.new) /\
  result (TransformByQState.observe (fun name : string => name) TransformByQState.IsRunning)
    (after (TransformByQState.call_metadata (TransformByQState.SetJobId "job-123"))
       (after TransformByQState.setToRunning TransformByQState.new))
  = result (TransformByQState.observe (fun name : string => name) TransformByQState.IsRunning)
      (after TransformByQState.setToRunning TransformByQState.new).
Proof.
  split; [discriminate |]. split; [discriminate |].
  apply (metadata_setter_frame (fun name : string => name)
           (TransformByQState.SetJobId "job-123")
           (after TransformByQState.setToRunning TransformByQState.new)
           TransformByQState.Field_projectName TransformByQState.IsRunning);
    discriminate.
Defined.

(** The setter's own field does get the argument (or the version the setter
    is named after). *)
Lemma metadata_setter_assigns (m : TransformByQState.MetadataSetter) (this : TransformByQState.t) :
  TransformByQState.field (TransformByQState.own_field m)
    (after (TransformByQState.call_metadata m) this)
  = match m with
    | TransformByQState.SetProjectName s
    | TransformByQState.SetProjectPath s
    | TransformByQState.SetJobId s
    | TransformByQState.SetPlanFilePath s
    | TransformByQState.SetPolledJobStatus s
    | TransformByQState.SetSummaryFilePath s
    | TransformByQState.SetJobFailureReason s => TransformByQState.OfString s
    | TransformByQState.SetSourceJDKVersionToJDK8 => TransformByQState.OfJDKVersion JDK8
    | TransformByQState.SetSourceJDKVersionToJDK11 => TransformByQState.OfJDKVersion JDK11
    | TransformByQState.SetTargetJDKVersionToJDK17 => TransformByQState.OfJDKVersion JDK17
    end.
Proof. destruct m; reflexivity. Qed.

(** C8. [setToSucceeded], called on the controller of any configuration,
    makes the job state Succeeded and leaves the review status and each of
    the controller's nine other fields as they were. *)
Theorem setToSucceeded_frame (cfg : Configuration) :
  let cfg' := after (on_controller TransformByQState.setToSucceeded) cfg in
  reviewStatus cfg' = reviewStatus cfg /\
  TransformByQState.transformByQState (controller cfg') = TransformByQStatus_Succeeded /\
  TransformByQState.projectName (controller cfg')
  = TransformByQState.projectName (controller cfg) /\
  TransformByQState.projectPath (controller cfg')
  = TransformByQState.projectPath (controller cfg) /\
  TransformByQState.jobId (controller cfg') = TransformByQState.jobId (controller cfg) /\
  TransformByQState.sourceJDKVersion (controller cfg')
  = TransformByQState.sourceJDKVersion (controller cfg) /\
  TransformByQState.targetJDKVersion (controller cfg')
  = TransformByQState.targetJDKVersion (controller cfg) /\
  TransformByQState.planFilePath (controller cfg')
  = TransformByQState.planFilePath (controller cfg) /\
  TransformByQState.summaryFilePath (controller cfg')
  = TransformByQState.summaryFilePath (controller cfg) /\
  TransformByQState.polledJobStatus (controller cfg')
  = TransformByQState.polledJobStatus (controller cfg) /\
  TransformByQState.jobFailureReason (controller cfg')
  = TransformByQState.jobFailureReason (controller cfg).
Proof. destruct cfg as [this review]. cbn. repeat split. Qed.

(** ** Invariants *)

Lemma CodeScanState_exactly_one (this : CodeScanState.t) :
  exactly_one (CodeScanState.predicates this).
Proof. destruct this as [[ | | ]]; reflexivity. Qed.

Lemma TransformByQState_exactly_one (this : TransformByQState.t) :
  exactly_one (TransformByQState.predicates this).
Proof. destruct this as [[ | | | | | ] ? ? ? ? ? ? ? ? ?]; reflexivity. Qed.

(** C9. In every state a controller reaches from construction by calls of
    its public methods, exactly one of its state predicates returns true
    (three for the scan controller, six for the transform controller), and
    this is still so after one more call of any public method. *)
Theorem predicates_exactly_one {Icon : Type} (getIcon : string -> Icon) :
  (forall (calls : list CodeScanState.Call) (next : CodeScanState.Call),
      let this := CodeScanState.session getIcon calls CodeScanState.new in
      exactly_one [result CodeScanState.isNotStarted this;
                   result CodeScanState.isRunning this;
                   result CodeScanState.isCancelling this] /\
      exactly_one (CodeScanState.predicates (after (CodeScanState.invoke getIcon next) this))) /\
  (forall (calls : list TransformByQState.Call) (next : TransformByQState.Call),
      let this := TransformByQState.session getIcon calls TransformByQState.new in
      exactly_one [result TransformByQState.isNotStarted this;
                   result TransformByQState.isRunning this;
                   result TransformByQState.isCancelled this;
                   result TransformByQState.isFailed this;
                   result TransformByQState.isSucceeded this;
                   result TransformByQState.isPartiallySucceeded this] /\
      exactly_one
        (TransformByQState.predicates (after (TransformByQState.invoke getIcon next) this))).
Proof.
  split; intros calls next this; split.
  - apply (CodeScanState_exactly_one this).
  - apply CodeScanState_exactly_one.
  - apply (TransformByQState_exactly_one this).
  - apply TransformByQState_exactly_one.
Qed.

Lemma versions_ok_invoke {Icon : Type} (getIcon : string -> Icon)
  (c : TransformByQState.Call) (this : TransformByQState.t) :
  versions_ok this -> versions_ok (after (TransformByQState.invoke getIcon c) this).
Proof.
  unfold versions_ok. intros [Ht Hs].
  destruct c as [g | c | m].
  - destruct g; cbn; auto.
  - destruct c; cbn; auto.
  - destruct m; cbn; auto.
Qed.

Lemma versions_ok_session {Icon : Type} (getIcon : string -> Icon)
  (calls : list TransformByQState.Call) (this : TransformByQState.t) :
  versions_ok this -> versions_ok (TransformByQState.session getIcon calls this).
Proof.
  revert this. induction calls as [| c calls IH]; intros this H; cbn.
  - exact H.
  - apply IH. apply versions_ok_invoke. exact H.
Qed.

(** C10. In every state the transform controller reaches from construction
    by calls of its public methods, [getTargetJDKVersion] returns JDK17 and
    [getSourceJDKVersion] returns JDK8 or JDK11, hence never JDK17. *)
Theorem reachable_JDK_versions {Icon : Type} (getIcon : string -> Icon)
  (calls : list TransformByQState.Call) :
  let this := TransformByQState.session getIcon calls TransformByQState.new in
  result TransformByQState.getTargetJDKVersion this = JDK17 /\
  (result TransformByQState.getSourceJDKVersion this = JDK8 \/
   result TransformByQState.getSourceJDKVersion this = JDK11) /\
  result TransformByQState.getSourceJDKVersion this <> JDK17.
Proof.
  intros this.
  assert (H : versions_ok this).
  { apply versions_ok_session. split; [reflexivity | left; reflexivity]. }
  destruct H as [Ht Hs].
  split; [exact Ht |]. split; [exact Hs |].
  unfold result, TransformByQState.getSourceJDKVersion, read; cbn [fst].
  destruct Hs as [-> | ->]; discriminate.
Qed.

(** ** Stopped-by-user errors *)

(** C7. The file declares two stopped-by-user error classes and no other.
    Every instance of [CodeScanStoppedError] has the message "Security scan
    stopped by user." and every instance of [TransformByQStoppedError] the
    message "Transform by Q stopped by user."; every instance of either has
    [cancelled] true, while an error built without the marker has it false,
    so testing [cancelled] tells a stop by the user from a plain failure. *)
Theorem stopped_errors_cancelled :
  (forall c : StoppedError, c = CodeScanStoppedError \/ c = TransformByQStoppedError) /\
  CodeScanStoppedError <> TransformByQStoppedError /\
  (forall c : StoppedError, ToolkitError.cancelled (construct c) = true) /\
  ToolkitError.message (construct CodeScanStoppedError) = "Security scan stopped by user." /\
  ToolkitError.message (construct TransformByQStoppedError)
  = "Transform by Q stopped by user." /\
  (forall (c : StoppedError) (msg : string),
      ToolkitError.cancelled (construct c)
      <> ToolkitError.cancelled (ToolkitError.new msg {| info_cancelled := None |})).
Proof.
  split; [intros [ | ]; auto |].
  split; [discriminate |].
  split; [intros [ | ]; reflexivity |].
  split; [reflexivity |]. split; [reflexivity |].
  intros [ | ] msg; discriminate.
Qed.

(** ** Call sequences on the controllers *)

Section CallSequences.
Context {Icon : Type} (getIcon : string -> Icon).

Lemma Field_eqb_spec (a b : TransformByQState.Field) :
  TransformByQCalls.Field_eqb a b = true <-> a = b.
Proof.
  split.
  - destruct a, b; cbn; intros H; try reflexivity; discriminate H.
  - intros ->. destruct b; reflexivity.
Qed.

(** One call: the field it assigns gets the value, every other field stays. *)
Lemma invoke_field (c : TransformByQState.Call) (f : TransformByQState.Field)
  (this : TransformByQState.t) :
  TransformByQState.field f (after (TransformByQState.invoke getIcon c) this)
  = match TransformByQCalls.assignment c with
    | Some (f', v) => if TransformByQCalls.Field_eqb f f' then v
                      else TransformByQState.field f this
    | None => TransformByQState.field f this
    end.
Proof.
  destruct c as [g | s | m].
  - destruct g; reflexivity.
  - destruct s, f; reflexivity.
  - destruct m, f; reflexivity.
Qed.

(** X1.  Every transition setter of the transform controller, from any state,
    leaves the nine metadata fields as they were, and every getter of
    metadata returns what it returned before: no transition clears or resets
    job id, paths, versions, polled status or failure reason. *)
Theorem transition_setter_frame
  (s : TransformByQState.Setter) (this : TransformByQState.t)
  (f : TransformByQState.Field) (m : TransformByQState.MetadataSetter) :
  f <> TransformByQState.Field_transformByQState ->
  TransformByQState.field f (after (TransformByQState.call s) this)
  = TransformByQState.field f this /\
  result (TransformByQState.observe getIcon (TransformByQState.own_getter m))
    (after (TransformByQState.call s) this)
  = result (TransformByQState.observe getIcon (TransformByQState.own_getter m)) this.
Proof.
  intros Hf. split.
  - destruct s, f; first [reflexivity | exfalso; apply Hf; reflexivity].
  - destruct s, m; reflexivity.
Qed.

(** X2.  After any sequence of calls of public methods of the transform
    controller, in any order and from any state, each field holds the value
    assigned by the latest call in the sequence that assigns to it, and the
    value it had at the start when no call of the sequence assigns to it. *)
Theorem session_last_assignment
  (calls : list TransformByQState.Call) (f : TransformByQState.Field)
  (this : TransformByQState.t) :
  TransformByQState.field f (TransformByQState.session getIcon calls this)
  = match TransformByQCalls.last_assigned f calls with
    | Some v => v
    | None => TransformByQState.field f this
    end.
Proof.
  revert this. induction calls as [| c later IH]; intros this.
  - reflexivity.
  - cbn [TransformByQState.session TransformByQCalls.last_assigned].
    rewrite IH. destruct (TransformByQCalls.last_assigned f later) as [v |].
    + reflexivity.
    + rewrite invoke_field.
      destruct (TransformByQCalls.assignment c) as [[f' v] |]; [| reflexivity].
      destruct (TransformByQCalls.Field_eqb f f'); reflexivity.
Qed.

(** X3.  After any sequence of calls of public methods of the scan
    controller, from any state, its status is the one the latest setter call
    is named after, or the status at the start when the sequence has no
    setter call. *)
Theorem CodeScanState_session_last_assignment
  (calls : list CodeScanState.Call) (this : CodeScanState.t) :
  CodeScanState.codeScanState (CodeScanState.session getIcon calls this)
  = match CodeScanCalls.last_assigned calls with
    | Some s => s
    | None => CodeScanState.codeScanState this
    end.
Proof.
  revert this. induction calls as [| c later IH]; intros this.
  - reflexivity.
  - cbn [CodeScanState.session CodeScanCalls.last_assigned].
    rewrite IH. destruct (CodeScanCalls.last_assigned later) as [s |].
    + reflexivity.
    + destruct c as [g | s]; [destruct g | destruct s]; reflexivity.
Qed.

Lemma TransformByQState_get_after (g : TransformByQState.Getter) (this : TransformByQState.t) :
  after (TransformByQState.observe getIcon g) this = this.
Proof. destruct g; reflexivity. Qed.

Lemma CodeScanState_get_after (g : CodeScanState.Getter) (this : CodeScanState.t) :
  after (CodeScanState.observe getIcon g) this = this.
Proof. destruct g; reflexivity. Qed.

(** X4.  Looking does not disturb: on either controller, dropping from a
    sequence of calls every call of a method that only returns something
    (predicates, getters, button text and icon) leaves the final state of
    the sequence the same. *)
Theorem session_without_getters :
  (forall (calls : list CodeScanState.Call) (this : CodeScanState.t),
      CodeScanState.session getIcon calls this
      = CodeScanState.session getIcon (filter CodeScanCalls.assigns calls) this) /\
  (forall (calls : list TransformByQState.Call) (this : TransformByQState.t),
      TransformByQState.session getIcon calls this
      = TransformByQState.session getIcon (filter TransformByQCalls.assigns calls) this).
Proof.
  split.
  - intros calls. induction calls as [| c later IH]; intros this; [reflexivity |].
    destruct c as [g | s]; cbn [filter CodeScanCalls.assigns CodeScanState.session].
    + cbn [CodeScanState.invoke]. rewrite CodeScanState_get_after. apply IH.
    + apply IH.
  - intros calls. induction calls as [| c later IH]; intros this; [reflexivity |].
    destruct c as [g | s | m];
      cbn [filter TransformByQCalls.assigns TransformByQState.session].
    + cbn [TransformByQState.invoke]. rewrite TransformByQState_get_after. apply IH.
    + apply IH.
    + apply IH.
Qed.

Lemma TransformByQState_fields_ext (a b : TransformByQState.t) :
  (forall f, TransformByQState.field f a = TransformByQState.field f b) -> a = b.
Proof.
  intros H. destruct a, b.
  pose proof (H TransformByQState.Field_transformByQState) as H0.
  pose proof (H TransformByQState.Field_projectName) as H1.
  pose proof (H TransformByQState.Field_projectPath) as H2.
  pose proof (H TransformByQState.Field_jobId) as H3.
  pose proof (H TransformByQState.Field_sourceJDKVersion) as H4.
  pose proof (H TransformByQState.Field_targetJDKVersion) as H5.
  pose proof (H TransformByQState.Field_planFilePath) as H6.
  pose proof (H TransformByQState.Field_summaryFilePath) as H7.
  pose proof (H TransformByQState.Field_polledJobStatus) as H8.
  pose proof (H TransformByQState.Field_jobFailureReason) as H9.
  cbn in *. congruence.
Qed.

(** X5.  Two calls on the transform controller that do not assign to the same
    field can be made in either order: the object ends in the same state. *)
Theorem calls_on_distinct_fields_commute
  (c1 c2 : TransformByQState.Call) (this : TransformByQState.t) :
  (forall f1 v1 f2 v2,
      TransformByQCalls.assignment c1 = Some (f1, v1) ->
      TransformByQCalls.assignment c2 = Some (f2, v2) -> f1 <> f2) ->
  TransformByQState.session getIcon [c1; c2] this
  = TransformByQState.session getIcon [c2; c1] this.
Proof.
  intros H. apply TransformByQState_fields_ext. intros f.
  cbn [TransformByQState.session]. rewrite !invoke_field.
  destruct (TransformByQCalls.assignment c1) as [[f1 v1] |] eqn:E1;
    destruct (TransformByQCalls.assignment c2) as [[f2 v2] |] eqn:E2;
    try reflexivity.
  specialize (H f1 v1 f2 v2 eq_refl eq_refl).
  destruct (TransformByQCalls.Field_eqb f f1) eqn:F1;
    destruct (TransformByQCalls.Field_eqb f f2) eqn:F2; try reflexivity.
  apply Field_eqb_spec in F1. apply Field_eqb_spec in F2. congruence.
Qed.

(** X6.  Two calls on the transform controller that assign to the same field:
    the second alone decides, the first might as well not have been made. *)
Theorem later_call_overwrites
  (c1 c2 : TransformByQState.Call) (this : TransformByQState.t)
  (f : TransformByQState.Field) (v1 v2 : TransformByQState.FieldValue) :
  TransformByQCalls.assignment c1 = Some (f, v1) ->
  TransformByQCalls.assignment c2 = Some (f, v2) ->
  TransformByQState.session getIcon [c1; c2] this
  = TransformByQState.session getIcon [c2] this.
Proof.
  intros E1 E2. apply TransformByQState_fields_ext. intros f'.
  cbn [TransformByQState.session]. rewrite !invoke_field. rewrite E1, E2.
  destruct (TransformByQCalls.Field_eqb f' f); reflexivity.
Qed.

End CallSequences.

(** ** Code suggestions on and off *)

Section CodeSuggestions.
Context {Memento : Type}
        (key : string)
        (get : string -> Memento -> option bool)
        (set : string -> bool -> Memento -> Memento * option string).

Local Abbreviation isSuggestionsEnabled := (CodeSuggestionsState.isSuggestionsEnabled key get).
Local Abbreviation toggleSuggestions := (CodeSuggestionsState.toggleSuggestions key get set).
Local Abbreviation setSuggestionsEnabled := (CodeSuggestionsState.setSuggestionsEnabled key get set).

(** The answer of [isSuggestionsEnabled] when the memento holds a value. *)
Lemma isSuggestionsEnabled_stored (this : CodeSuggestionsState.t Memento) (v : bool) :
  get key (CodeSuggestionsState.context this) = Some v ->
  result isSuggestionsEnabled this = v.
Proof.
  intros E. unfold result, CodeSuggestionsState.isSuggestionsEnabled, read.
  cbn [fst]. rewrite E. reflexivity.
Qed.

(** [toggleSuggestions] when the update goes through. *)
Lemma toggleSuggestions_resolved
  (this : CodeSuggestionsState.t Memento) (context' : Memento) :
  set key (negb (result isSuggestionsEnabled this)) (CodeSuggestionsState.context this)
  = (context', None) ->
  toggleSuggestions this
  = (Return (negb (result isSuggestionsEnabled this)),
     {| CodeSuggestionsState.context := context';
        CodeSuggestionsState.fallback := CodeSuggestionsState.fallback this;
        CodeSuggestionsState.fired :=
          (CodeSuggestionsState.fired this
           ++ [negb (result isSuggestionsEnabled this)])%list |}).
Proof.
  intros Hset. unfold CodeSuggestionsState.toggleSuggestions. cbv zeta.
  rewrite Hset. reflexivity.
Qed.

(** [toggleSuggestions] when the update is rejected. *)
Lemma toggleSuggestions_rejected
  (this : CodeSuggestionsState.t Memento) (context' : Memento) (reason : string) :
  set key (negb (result isSuggestionsEnabled this)) (CodeSuggestionsState.context this)
  = (context', Some reason) ->
  toggleSuggestions this
  = (Throw reason,
     {| CodeSuggestionsState.context := context';
        CodeSuggestionsState.fallback := CodeSuggestionsState.fallback this;
        CodeSuggestionsState.fired := CodeSuggestionsState.fired this |}).
Proof.
  intros Hset. unfold CodeSuggestionsState.toggleSuggestions. cbv zeta.
  rewrite Hset. reflexivity.
Qed.

Lemma setSuggestionsEnabled_unchanged
  (this : CodeSuggestionsState.t Memento) (isEnabled : bool) :
  result isSuggestionsEnabled this = isEnabled ->
  setSuggestionsEnabled isEnabled this = (Return tt, this).
Proof.
  intros E. unfold CodeSuggestionsState.setSuggestionsEnabled.
  rewrite E. rewrite Bool.eqb_reflx. reflexivity.
Qed.

(** X7.  When the update of the memento goes through and the memento then holds
    the value stored, [toggleSuggestions] returns the opposite of what
    [isSuggestionsEnabled] answered before, [isSuggestionsEnabled] answers
    that value afterwards (the fallback no longer matters), and exactly one
    event, carrying that value, is fired after the events fired so far. *)
Theorem toggleSuggestions_flips
  (this : CodeSuggestionsState.t Memento) (context' : Memento) :
  set key (negb (result isSuggestionsEnabled this)) (CodeSuggestionsState.context this)
  = (context', None) ->
  get key context' = Some (negb (result isSuggestionsEnabled this)) ->
  result toggleSuggestions this = Return (negb (result isSuggestionsEnabled this)) /\
  result isSuggestionsEnabled (after toggleSuggestions this)
  = negb (result isSuggestionsEnabled this) /\
  CodeSuggestionsState.fired (after toggleSuggestions this)
  = (CodeSuggestionsState.fired this ++ [negb (result isSuggestionsEnabled this)])%list /\
  CodeSuggestionsState.fallback (after toggleSuggestions this)
  = CodeSuggestionsState.fallback this.
Proof.
  intros Hset Hget.
  unfold after. unfold result at 1.
  rewrite (toggleSuggestions_resolved this context' Hset). cbn [fst snd].
  split; [reflexivity |]. split; [| split; reflexivity].
  apply isSuggestionsEnabled_stored. exact Hget.
Qed.

(** X8.  When the update of the memento is rejected, [toggleSuggestions] rejects
    with the same reason and fires no event; [setSuggestionsEnabled], asked
    for the opposite of the present setting, does the same. *)
Theorem rejected_update_fires_nothing
  (this : CodeSuggestionsState.t Memento) (context' : Memento) (reason : string) :
  set key (negb (result isSuggestionsEnabled this)) (CodeSuggestionsState.context this)
  = (context', Some reason) ->
  result toggleSuggestions this = Throw reason /\
  CodeSuggestionsState.fired (after toggleSuggestions this) = CodeSuggestionsState.fired this /\
  result (setSuggestionsEnabled (negb (result isSuggestionsEnabled this))) this = Throw reason /\
  CodeSuggestionsState.fired
    (after (setSuggestionsEnabled (negb (result isSuggestionsEnabled this))) this)
  = CodeSuggestionsState.fired this.
Proof.
  intros Hset.
  pose proof (toggleSuggestions_rejected this context' reason Hset) as T.
  assert (S : setSuggestionsEnabled (negb (result isSuggestionsEnabled this)) this
              = (Throw reason,
                 {| CodeSuggestionsState.context := context';
                    CodeSuggestionsState.fallback := CodeSuggestionsState.fallback this;
                    CodeSuggestionsState.fired := CodeSuggestionsState.fired this |})).
  { unfold CodeSuggestionsState.setSuggestionsEnabled. rewrite T.
    destruct (result isSuggestionsEnabled this); reflexivity. }
  split; [unfold result at 1; rewrite T; reflexivity |].
  split; [unfold after; rewrite T; reflexivity |].
  split; [unfold result at 1; rewrite S; reflexivity |].
  unfold after; rewrite S; reflexivity.
Qed.

(** X9.  [setSuggestionsEnabled], asked for the setting that [isSuggestionsEnabled]
    already answers, returns without storing or firing anything, whatever the
    memento would have done with an update: the object is exactly as before. *)
Theorem setSuggestionsEnabled_same_is_noop (this : CodeSuggestionsState.t Memento) :
  setSuggestionsEnabled (result isSuggestionsEnabled this) this = (Return tt, this).
Proof. apply setSuggestionsEnabled_unchanged. reflexivity. Qed.

(** X10.  With a memento whose updates go through and that then holds the value
    stored: after [setSuggestionsEnabled isEnabled], [isSuggestionsEnabled]
    answers [isEnabled]; an event (carrying [isEnabled]) is fired when this
    changed the setting and none when it did not; and a second call with the
    same argument stores nothing, fires nothing and leaves the object as the
    first call left it. *)
Theorem setSuggestionsEnabled_sets
  (this : CodeSuggestionsState.t Memento) (isEnabled : bool) :
  (forall (v : bool) (m : Memento), exists m', set key v m = (m', None) /\ get key m' = Some v) ->
  let this' := after (setSuggestionsEnabled isEnabled) this in
  result (setSuggestionsEnabled isEnabled) this = Return tt /\
  result isSuggestionsEnabled this' = isEnabled /\
  CodeSuggestionsState.fired this'
  = (CodeSuggestionsState.fired this
     ++ (if Bool.eqb (result isSuggestionsEnabled this) isEnabled then [] else [isEnabled]))%list /\
  setSuggestionsEnabled isEnabled this' = (Return tt, this').
Proof.
  intros Hstore this'.
  assert (Hmain :
    result (setSuggestionsEnabled isEnabled) this = Return tt /\
    result isSuggestionsEnabled this' = isEnabled /\
    CodeSuggestionsState.fired this'
    = (CodeSuggestionsState.fired this
       ++ (if Bool.eqb (result isSuggestionsEnabled this) isEnabled then [] else [isEnabled]))%list).
  { subst this'.
    destruct (Bool.eqb (result isSuggestionsEnabled this) isEnabled) eqn:E.
    - apply Bool.eqb_prop in E.
      unfold result at 1, after.
      rewrite (setSuggestionsEnabled_unchanged this isEnabled E). cbn [fst snd].
      split; [reflexivity |]. split; [exact E |]. symmetry. apply app_nil_r.
    - assert (N : negb (result isSuggestionsEnabled this) = isEnabled).
      { destruct (result isSuggestionsEnabled this), isEnabled; cbn in E |- *;
          congruence. }
      destruct (Hstore (negb (result isSuggestionsEnabled this))
                       (CodeSuggestionsState.context this)) as [m' [Hset Hget]].
      unfold result at 1, after, CodeSuggestionsState.setSuggestionsEnabled.
      rewrite E. cbn [negb].
      rewrite (toggleSuggestions_resolved this m' Hset). cbn [fst snd].
      rewrite <- N. split; [reflexivity |]. split; [| reflexivity].
      apply isSuggestionsEnabled_stored. exact Hget. }
  destruct Hmain as [R [En Fi]].
  split; [exact R |]. split; [exact En |]. split; [exact Fi |].
  apply setSuggestionsEnabled_unchanged. exact En.
Qed.

(** X11.  With a memento whose updates go through and that then holds the
    value stored, toggling twice brings [isSuggestionsEnabled] back
    to what it answered at the start and fires two events, the first with the
    opposite of that answer and the second with the answer itself. *)
Theorem toggleSuggestions_twice
  (this : CodeSuggestionsState.t Memento) :
  (forall (v : bool) (m : Memento), exists m', set key v m = (m', None) /\ get key m' = Some v) ->
  let once := after toggleSuggestions this in
  let again := after toggleSuggestions once in
  result isSuggestionsEnabled again = result isSuggestionsEnabled this /\
  CodeSuggestionsState.fired again
  = (CodeSuggestionsState.fired this
     ++ [negb (result isSuggestionsEnabled this); result isSuggestionsEnabled this])%list.
Proof.
  intros Hstore once again.
  destruct (Hstore (negb (result isSuggestionsEnabled this))
                   (CodeSuggestionsState.context this)) as [m1 [Hset1 Hget1]].
  pose proof (toggleSuggestions_resolved this m1 Hset1) as T1.
  assert (En1 : result isSuggestionsEnabled once = negb (result isSuggestionsEnabled this)).
  { subst once. unfold after. rewrite T1. apply isSuggestionsEnabled_stored. exact Hget1. }
  assert (Fi1 : CodeSuggestionsState.fired once
                = (CodeSuggestionsState.fired this
                   ++ [negb (result isSuggestionsEnabled this)])%list).
  { subst once. unfold after. rewrite T1. reflexivity. }
  destruct (Hstore (negb (result isSuggestionsEnabled once))
                   (CodeSuggestionsState.context once)) as [m2 [Hset2 Hget2]].
  pose proof (toggleSuggestions_resolved once m2 Hset2) as T2.
  assert (En2 : result isSuggestionsEnabled again = negb (result isSuggestionsEnabled once)).
  { subst again. unfold after at 1. rewrite T2. apply isSuggestionsEnabled_stored. exact Hget2. }
  assert (Fi2 : CodeSuggestionsState.fired again
                = (CodeSuggestionsState.fired once
                   ++ [negb (result isSuggestionsEnabled once)])%list).
  { subst again. unfold after at 1. rewrite T2. reflexivity. }
  rewrite En2, Fi2, Fi1, En1, Bool.negb_involutive, <- app_assoc.
  split; reflexivity.
Qed.

End CodeSuggestions.

(** ** SAM debug configurations *)

Section DebugConfigurations.
Import DebugConfiguration.
Context {Folder Config : Type} {host : Host Folder Config}.

Lemma code_is_not_template : String.eqb "code" "template" = false.
Proof. reflexivity. Qed.

(** The template resource asked for by a template config, cut into the three
    tests the function makes. *)
Lemma getTemplateResource_template (folder : option Folder) (config : Config) :
  target (invokeTarget config) = "template" ->
  getTemplateResource folder config
  = let templateInvoke := invokeTarget config in
    let cfnTemplate :=
      getRegisteredTemplate (tryGetAbsolutePath folder (samTemplatePath templateInvoke)) in
    if negb (truthy cfnTemplate)
    then Throw ("template not found (not registered?): " ++ samTemplatePath templateInvoke)
    else if negb (truthy (member cfnTemplate "Resources"))
    then Throw ("no Resources in template: " ++ samTemplatePath templateInvoke)
    else if negb (truthy (member (member cfnTemplate "Resources")
                            (samTemplateResource templateInvoke)))
    then Throw ("template Resources object does not contain key '"
                ++ samTemplateResource templateInvoke ++ "':"
                ++ " " ++ stringify (member cfnTemplate "Resources"))
    else Return (member (member cfnTemplate "Resources") (samTemplateResource templateInvoke)).
Proof.
  intros E. unfold getTemplateResource, getTemplate. rewrite E. reflexivity.
Qed.

Lemma getTemplateResource_other (folder : option Folder) (config : Config) :
  target (invokeTarget config) <> "template" ->
  getTemplateResource folder config = Return JSUndefined.
Proof.
  intros E. unfold getTemplateResource.
  apply String.eqb_neq in E. rewrite E. reflexivity.
Qed.

(** For a template config, [getCodeRoot] and [getHandlerName] in terms of
    what [getTemplateResource] gives. *)
Lemma getCodeRoot_template (folder : option Folder) (config : Config) :
  target (invokeTarget config) = "template" ->
  getCodeRoot folder config
  = match getTemplateResource folder config with
    | Throw message => Throw message
    | Return templateResource =>
        if negb (truthy (member templateResource "Properties")) then Return None
        else
          match member (member templateResource "Properties") "CodeUri" with
          | JSString codeUri =>
              Return (Some (normalize
                              (resolve
                                 (dirname (tryGetAbsolutePath folder
                                             (samTemplatePath (invokeTarget config))))
                                 codeUri)))
          | notAString => Throw (invalidPathArgument notAString)
          end
    end.
Proof.
  intros T. unfold getCodeRoot. cbv zeta. rewrite T. reflexivity.
Qed.

Lemma getHandlerName_template (folder : option Folder) (config : Config) :
  target (invokeTarget config) = "template" ->
  getHandlerName folder config
  = match getTemplateResource folder config with
    | Throw message => (Throw message, [])
    | Return templateResource =>
        (Return (member (member templateResource "Properties") "Handler"), [])
    end.
Proof.
  intros T. unfold getHandlerName. cbv zeta. rewrite T. reflexivity.
Qed.


(** What [getTemplateResource] returns for a template config is truthy. *)
Lemma getTemplateResource_template_truthy
  (folder : option Folder) (config : Config) (v : JSValue) :
  target (invokeTarget config) = "template" ->
  getTemplateResource folder config = Return v ->
  truthy v = true.
Proof.
  intros T. rewrite (getTemplateResource_template folder config T). cbv zeta.
  destruct (truthy (getRegisteredTemplate _)); cbn [negb]; [| discriminate].
  destruct (truthy (member (getRegisteredTemplate _) "Resources")); cbn [negb];
    [| discriminate].
  destruct (truthy (member (member (getRegisteredTemplate _) "Resources") _)) eqn:K;
    cbn [negb]; [| discriminate].
  intros E. injection E as <-. exact K.
Qed.

(** X12.  [getTemplateResource] returns [undefined] exactly for a config whose
    target is not 'template'.  For a template config it returns exactly when
    three things are truthy: what is registered under the template path made
    absolute, the [Resources] of that, and what the property access
    [Resources[samTemplateResource]] gives; it returns what that access gave,
    be it an entry of the template or not (an inherited member such as
    'constructor' is returned as well). *)
Theorem getTemplateResource_returns
  (folder : option Folder) (config : Config) (v : JSValue) :
  (getTemplateResource folder config = Return JSUndefined
   <-> target (invokeTarget config) <> "template") /\
  (getTemplateResource folder config = Return v
   <-> (target (invokeTarget config) <> "template" /\ v = JSUndefined) \/
       (target (invokeTarget config) = "template" /\
        let cfnTemplate :=
          getRegisteredTemplate
            (tryGetAbsolutePath folder (samTemplatePath (invokeTarget config))) in
        truthy cfnTemplate = true /\
        truthy (member cfnTemplate "Resources") = true /\
        v = member (member cfnTemplate "Resources")
              (samTemplateResource (invokeTarget config)) /\
        truthy v = true)).
Proof.
  cbv zeta.
  destruct (String.eqb_spec (target (invokeTarget config)) "template") as [E | E].
  - split.
    + split; [| intros N; contradiction].
      intros G. apply (getTemplateResource_template_truthy folder config _ E) in G.
      discriminate G.
    + rewrite (getTemplateResource_template folder config E). cbv zeta.
      destruct (truthy (getRegisteredTemplate _)) eqn:T1; cbn [negb].
      * destruct (truthy (member (getRegisteredTemplate _) "Resources")) eqn:T2;
          cbn [negb].
        -- destruct (truthy (member (member (getRegisteredTemplate _) "Resources") _))
             eqn:T3; cbn [negb].
           ++ split.
              ** intros G. injection G as <-. right. repeat split; assumption.
              ** intros [[N _] | [_ [_ [_ [-> _]]]]]; [contradiction | reflexivity].
           ++ split; [discriminate |].
              intros [[N _] | [_ [_ [_ [-> K]]]]]; [contradiction |].
              rewrite T3 in K. discriminate K.
        -- split; [discriminate |].
           intros [[N _] | [_ [_ [K _]]]]; [contradiction | discriminate K].
      * split; [discriminate |].
        intros [[N _] | [_ [K _]]]; [contradiction | discriminate K].
  - rewrite (getTemplateResource_other folder config E).
    split.
    + split; [intros _; exact E | reflexivity].
    + split.
      * intros G. injection G as <-. left. split; [exact E | reflexivity].
      * intros [[_ ->] | [N _]]; [reflexivity | contradiction].
Qed.

(** X13.  [getTemplateResource] throws only for a template config, in exactly
    three cases, each with its own message: what is registered under the
    template path made absolute is falsy (nothing is registered, say); its
    [Resources] is falsy; the property access [Resources[samTemplateResource]]
    gives something falsy (nothing, or an entry that is [null] or otherwise
    falsy). *)
Theorem getTemplateResource_throws
  (folder : option Folder) (config : Config) (message : string) :
  getTemplateResource folder config = Throw message
  <-> target (invokeTarget config) = "template" /\
      let templateInvoke := invokeTarget config in
      let cfnTemplate :=
        getRegisteredTemplate (tryGetAbsolutePath folder (samTemplatePath templateInvoke)) in
      ((truthy cfnTemplate = false /\
        message = "template not found (not registered?): " ++ samTemplatePath templateInvoke) \/
       (truthy cfnTemplate = true /\
        truthy (member cfnTemplate "Resources") = false /\
        message = "no Resources in template: " ++ samTemplatePath templateInvoke) \/
       (truthy cfnTemplate = true /\
        truthy (member cfnTemplate "Resources") = true /\
        truthy (member (member cfnTemplate "Resources")
                  (samTemplateResource templateInvoke)) = false /\
        message = "template Resources object does not contain key '"
                  ++ samTemplateResource templateInvoke ++ "':"
                  ++ " " ++ stringify (member cfnTemplate "Resources"))).
Proof.
  cbv zeta.
  destruct (String.eqb_spec (target (invokeTarget config)) "template") as [E | E].
  - rewrite (getTemplateResource_template folder config E). cbv zeta.
    destruct (truthy (getRegisteredTemplate _)) eqn:T1; cbn [negb].
    + destruct (truthy (member (getRegisteredTemplate _) "Resources")) eqn:T2;
        cbn [negb].
      * destruct (truthy (member (member (getRegisteredTemplate _) "Resources") _))
          eqn:T3; cbn [negb].
        -- split; [discriminate |].
           intros [_ [[K _] | [[_ [K _]] | [_ [_ [K _]]]]]]; discriminate K.
        -- split.
           ++ intros G. injection G as <-. split; [exact E |].
              right; right. repeat split.
           ++ intros [_ [[K _] | [[_ [K _]] | [_ [_ [_ ->]]]]]];
                [discriminate K | discriminate K | reflexivity].
      * split.
        -- intros G. injection G as <-. split; [exact E |].
           right; left. repeat split.
        -- intros [_ [[K _] | [[_ [_ ->]] | [_ [K _]]]]];
             [discriminate K | reflexivity | discriminate K].
    + split.
      * intros G. injection G as <-. split; [exact E |]. left. split; reflexivity.
      * intros [_ [[_ ->] | [[K _] | [K _]]]];
          [reflexivity | discriminate K | discriminate K].
  - rewrite (getTemplateResource_other folder config E).
    split; [discriminate | intros [E' _]; contradiction].
Qed.

(** X14.  [getHandlerName] throws exactly when [getTemplateResource] does, with
    the same message.  It shows an error message exactly when the target is
    neither 'code' nor 'template'; it then shows that one message and returns
    the empty string. *)
Theorem getHandlerName_failures (folder : option Folder) (config : Config) :
  (forall message : string,
      fst (getHandlerName folder config) = Throw message
      <-> getTemplateResource folder config = Throw message) /\
  (snd (getHandlerName folder config) <> []
   <-> target (invokeTarget config) <> "code" /\
       target (invokeTarget config) <> "template") /\
  (getHandlerName folder config = (Return (JSString ""), [invalidTargetMessage])
   <-> target (invokeTarget config) <> "code" /\
       target (invokeTarget config) <> "template").
Proof.
  unfold getHandlerName. cbv zeta.
  destruct (String.eqb_spec (target (invokeTarget config)) "code") as [C | C].
  - assert (NT : target (invokeTarget config) <> "template").
    { rewrite C. discriminate. }
    rewrite (getTemplateResource_other folder config NT).
    split; [intros message; split; discriminate |].
    split; (split; [| intros [N _]; contradiction]).
    + cbn [snd]. intros N; contradiction.
    + discriminate.
  - destruct (String.eqb_spec (target (invokeTarget config)) "template") as [T | T].
    + split; [| split].
      * intros message.
        destruct (getTemplateResource folder config) as [r | m]; cbn [fst];
          split; intros E; try discriminate E; injection E as <-; reflexivity.
      * destruct (getTemplateResource folder config) as [r | m]; cbn [snd];
          (split; [intros N; contradiction | intros [_ N]; contradiction]).
      * destruct (getTemplateResource folder config) as [r | m];
          (split; [discriminate | intros [_ N]; contradiction]).
    + rewrite (getTemplateResource_other folder config T).
      split; [intros message; split; discriminate |].
      split; (split; [intros _; split; assumption |]).
      * discriminate.
      * reflexivity.
Qed.

(** X15.  [getCodeRoot] throws in exactly three ways: when
    [getTemplateResource] throws, with the same message; when the resource
    found has truthy [Properties] whose [CodeUri] is not a string (missing,
    say), with the [TypeError] of [path.resolve]; and for a target that is
    neither 'code' nor 'template', with 'invalid invokeTarget'. *)
Theorem getCodeRoot_throws
  (folder : option Folder) (config : Config) (message : string) :
  getCodeRoot folder config = Throw message
  <-> getTemplateResource folder config = Throw message \/
      (exists templateResource : JSValue,
          getTemplateResource folder config = Return templateResource /\
          truthy (member templateResource "Properties") = true /\
          not_a_string (member (member templateResource "Properties") "CodeUri") /\
          message
          = invalidPathArgument (member (member templateResource "Properties") "CodeUri")) \/
      (target (invokeTarget config) <> "code" /\
       target (invokeTarget config) <> "template" /\
       message = "invalid invokeTarget").
Proof.
  destruct (String.eqb_spec (target (invokeTarget config)) "template") as [T | T].
  - assert (C : target (invokeTarget config) <> "code") by (rewrite T; discriminate).
    rewrite (getCodeRoot_template folder config T).
    destruct (getTemplateResource folder config) as [r | m].
    + destruct (truthy (member r "Properties")) eqn:P; cbn [negb].
      * destruct (member (member r "Properties") "CodeUri") as [ | | s | o | t o] eqn:U.
        -- split.
           ++ intros G. injection G as <-. right; left. exists r.
              rewrite U. repeat split; try assumption. intros s; discriminate.
           ++ intros [G | [[r' [G [_ [_ ->]]]] | [_ [N _]]]];
                [discriminate G | | contradiction].
              injection G as <-. rewrite U. reflexivity.
        -- split.
           ++ intros G. injection G as <-. right; left. exists r.
              rewrite U. repeat split; try assumption. intros s; discriminate.
           ++ intros [G | [[r' [G [_ [_ ->]]]] | [_ [N _]]]];
                [discriminate G | | contradiction].
              injection G as <-. rewrite U. reflexivity.
        -- split; [discriminate |].
           intros [G | [[r' [G [_ [S _]]]] | [_ [N _]]]];
             [discriminate G | | contradiction].
           injection G as <-. rewrite U in S. exfalso. apply (S s). reflexivity.
        -- split.
           ++ intros G. injection G as <-. right; left. exists r.
              rewrite U. repeat split; try assumption. intros s; discriminate.
           ++ intros [G | [[r' [G [_ [_ ->]]]] | [_ [N _]]]];
                [discriminate G | | contradiction].
              injection G as <-. rewrite U. reflexivity.
        -- split.
           ++ intros G. injection G as <-. right; left. exists r.
              rewrite U. repeat split; try assumption. intros s; discriminate.
           ++ intros [G | [[r' [G [_ [_ ->]]]] | [_ [N _]]]];
                [discriminate G | | contradiction].
              injection G as <-. rewrite U. reflexivity.
      * split; [discriminate |].
        intros [G | [[r' [G [K _]]] | [_ [N _]]]];
          [discriminate G | | contradiction].
        injection G as <-. rewrite P in K. discriminate K.
    + split.
      * intros G. injection G as <-. left. reflexivity.
      * intros [G | [[r' [G _]] | [_ [N _]]]];
          [injection G as <-; reflexivity | discriminate G | contradiction].
  - rewrite (getTemplateResource_other folder config T).
    unfold getCodeRoot. cbv zeta.
    destruct (String.eqb_spec (target (invokeTarget config)) "code") as [C | C].
    + split; [discriminate |].
      intros [G | [[r' [G [K _]]] | [N _]]];
        [discriminate G | | contradiction].
      injection G as <-. cbn in K. discriminate K.
    + apply String.eqb_neq in T. rewrite T.
      split.
      * intros G. injection G as <-. right; right.
        apply String.eqb_neq in T. repeat split; assumption.
      * intros [G | [[r' [G [K _]]] | [_ [_ ->]]]];
          [discriminate G | | reflexivity].
        injection G as <-. cbn in K. discriminate K.
Qed.

(** X16.  A config that passes [assertTargetKind] for 'code' needs no template:
    [getTemplate] and [getTemplateResource] return [undefined] without looking
    anything up, [getCodeRoot] returns the normalized absolute [projectRoot]
    and [getHandlerName] returns [lambdaHandler]; nothing throws and no
    message is shown. *)
Theorem code_config_needs_no_template (folder : option Folder) (config : Config) :
  assertTargetKind config ExpectCode = Return tt ->
  getTemplate folder config = JSUndefined /\
  getTemplateResource folder config = Return JSUndefined /\
  getCodeRoot folder config
  = Return (Some (normalize (tryGetAbsolutePath folder (projectRoot (invokeTarget config))))) /\
  getHandlerName folder config
  = (Return (JSString (lambdaHandler (invokeTarget config))), []).
Proof.
  unfold assertTargetKind. cbn [ExpectedTarget_value].
  destruct (String.eqb_spec (target (invokeTarget config)) "code") as [C | C];
    cbn [negb]; [intros _ | discriminate].
  unfold getTemplate, getTemplateResource, getCodeRoot, getHandlerName. cbv zeta.
  rewrite C. rewrite code_is_not_template. cbn [negb String.eqb Ascii.eqb Bool.eqb].
  repeat split.
Qed.


(** X18.  When [getTemplateResource] returns for a template config,
    [getHandlerName] does not throw and shows nothing: it returns the
    [Handler] of the [Properties] of what was found, which is [undefined]
    when there are no [Properties] or no [Handler], the declared [string]
    result notwithstanding.  [getCodeRoot] returns [undefined] when the
    [Properties] are falsy; otherwise it returns the normalized path of
    [CodeUri] resolved against the directory of the template when [CodeUri]
    is a string, and throws the [TypeError] of [path.resolve] when it is
    not. *)
Theorem template_resource_found
  (folder : option Folder) (config : Config) (templateResource : JSValue) :
  target (invokeTarget config) = "template" ->
  getTemplateResource folder config = Return templateResource ->
  getHandlerName folder config
  = (Return (member (member templateResource "Properties") "Handler"), []) /\
  getCodeRoot folder config
  = (if truthy (member templateResource "Properties")
     then match member (member templateResource "Properties") "CodeUri" with
          | JSString codeUri =>
              Return (Some (normalize
                              (resolve
                                 (dirname (tryGetAbsolutePath folder
                                             (samTemplatePath (invokeTarget config))))
                                 codeUri)))
          | notAString => Throw (invalidPathArgument notAString)
          end
     else Return None).
Proof.
  intros T G.
  rewrite (getCodeRoot_template folder config T).
  rewrite (getHandlerName_template folder config T).
  rewrite G. split; [reflexivity |].
  destruct (truthy (member templateResource "Properties")); reflexivity.
Qed.

(** X19.  Every code root that [getCodeRoot] returns has been through
    [pathutil.normalize]; when normalizing twice is the same as normalizing
    once, a returned code root is already normalized. *)
Theorem getCodeRoot_normalized (folder : option Folder) (config : Config) (root : string) :
  (forall p : string, normalize (normalize p) = normalize p) ->
  getCodeRoot folder config = Return (Some root) ->
  normalize root = root.
Proof.
  intros I. unfold getCodeRoot. cbv zeta.
  destruct (String.eqb (target (invokeTarget config)) "code").
  - intros E. injection E as <-. apply I.
  - destruct (String.eqb (target (invokeTarget config)) "template"); [| discriminate].
    destruct (getTemplateResource folder config) as [r | m]; [| discriminate].
    destruct (negb (truthy (member r "Properties"))); [discriminate |].
    destruct (member (member r "Properties") "CodeUri"); try discriminate.
    intros E. injection E as <-. apply I.
Qed.

End DebugConfigurations.

(** ** The theorems with premises, at concrete inputs *)

Lemma transition_setter_frame_witness :
  TransformByQState.Field_jobId <> TransformByQState.Field_transformByQState /\
  TransformByQState.field TransformByQState.Field_jobId
    (after (TransformByQState.call TransformByQState.SetToFailed)
       (after (TransformByQState.setJobId "job-123") TransformByQState.new))
  = TransformByQState.OfString "job-123" /\
  result (TransformByQState.observe (fun name : string => name)
            (TransformByQState.own_getter (TransformByQState.SetJobId "")))
    (after (TransformByQState.call TransformByQState.SetToFailed)
       (after (TransformByQState.setJobId "job-123") TransformByQState.new))
  = VString "job-123".
Proof.
  split; [discriminate |].
  apply (transition_setter_frame (fun name : string => name)
           TransformByQState.SetToFailed
           (after (TransformByQState.setJobId "job-123") TransformByQState.new)
           TransformByQState.Field_jobId (TransformByQState.SetJobId "")).
  discriminate.
Defined.

Lemma calls_on_distinct_fields_commute_witness :
  (forall f1 v1 f2 v2,
      TransformByQCalls.assignment
        (TransformByQState.Metadata (TransformByQState.SetJobId "job-123")) = Some (f1, v1) ->
      TransformByQCalls.assignment
        (TransformByQState.Transition TransformByQState.SetToRunning) = Some (f2, v2) ->
      f1 <> f2) /\
  TransformByQState.session (fun name : string => name)
    [TransformByQState.Metadata (TransformByQState.SetJobId "job-123");
     TransformByQState.Transition TransformByQState.SetToRunning] TransformByQState.new
  = TransformByQState.session (fun name : string => name)
      [TransformByQState.Transition TransformByQState.SetToRunning;
       TransformByQState.Metadata (TransformByQState.SetJobId "job-123")] TransformByQState.new.
Proof.
  assert (D : forall f1 v1 f2 v2,
             TransformByQCalls.assignment
               (TransformByQState.Metadata (TransformByQState.SetJobId "job-123"))
             = Some (f1, v1) ->
             TransformByQCalls.assignment
               (TransformByQState.Transition TransformByQState.SetToRunning) = Some (f2, v2) ->
             f1 <> f2).
  { intros f1 v1 f2 v2 E1 E2. cbn in E1, E2.
    injection E1 as <- _. injection E2 as <- _. discriminate. }
  split; [exact D |].
  apply (calls_on_distinct_fields_commute (fun name : string => name)
           (TransformByQState.Metadata (TransformByQState.SetJobId "job-123"))
           (TransformByQState.Transition TransformByQState.SetToRunning)
           TransformByQState.new D).
Defined.

Lemma later_call_overwrites_witness :
  TransformByQCalls.assignment (TransformByQState.Metadata TransformByQState.SetSourceJDKVersionToJDK11)
  = Some (TransformByQState.Field_sourceJDKVersion, TransformByQState.OfJDKVersion JDK11) /\
  TransformByQCalls.assignment (TransformByQState.Metadata TransformByQState.SetSourceJDKVersionToJDK8)
  = Some (TransformByQState.Field_sourceJDKVersion, TransformByQState.OfJDKVersion JDK8) /\
  TransformByQState.session (fun name : string => name)
    [TransformByQState.Metadata TransformByQState.SetSourceJDKVersionToJDK11;
     TransformByQState.Metadata TransformByQState.SetSourceJDKVersionToJDK8]
    TransformByQState.new
  = TransformByQState.session (fun name : string => name)
      [TransformByQState.Metadata TransformByQState.SetSourceJDKVersionToJDK8]
      TransformByQState.new.
Proof.
  split; [reflexivity |]. split; [reflexivity |].
  apply (later_call_overwrites (fun name : string => name)
           (TransformByQState.Metadata TransformByQState.SetSourceJDKVersionToJDK11)
           (TransformByQState.Metadata TransformByQState.SetSourceJDKVersionToJDK8)
           TransformByQState.new TransformByQState.Field_sourceJDKVersion
           (TransformByQState.OfJDKVersion JDK11) (TransformByQState.OfJDKVersion JDK8));
    reflexivity.
Defined.

(** A state with nothing stored and fallback [false]: suggestions are off. *)
Lemma toggleSuggestions_flips_witness :
  ListMemento.set "autoTriggerEnabled" true [] = ([("autoTriggerEnabled", true)], None) /\
  ListMemento.get "autoTriggerEnabled" [("autoTriggerEnabled", true)] = Some true /\
  result (CodeSuggestionsState.toggleSuggestions "autoTriggerEnabled"
            ListMemento.get ListMemento.set)
    (CodeSuggestionsState.new [] false) = Return true /\
  result (CodeSuggestionsState.isSuggestionsEnabled "autoTriggerEnabled" ListMemento.get)
    (after (CodeSuggestionsState.toggleSuggestions "autoTriggerEnabled"
              ListMemento.get ListMemento.set)
       (CodeSuggestionsState.new [] false)) = true /\
  CodeSuggestionsState.fired
    (after (CodeSuggestionsState.toggleSuggestions "autoTriggerEnabled"
              ListMemento.get ListMemento.set)
       (CodeSuggestionsState.new [] false)) = [true] /\
  CodeSuggestionsState.fallback
    (after (CodeSuggestionsState.toggleSuggestions "autoTriggerEnabled"
              ListMemento.get ListMemento.set)
       (CodeSuggestionsState.new [] false)) = false.
Proof.
  split; [reflexivity |]. split; [reflexivity |].
  apply (toggleSuggestions_flips "autoTriggerEnabled" ListMemento.get ListMemento.set
           (CodeSuggestionsState.new [] false) [("autoTriggerEnabled", true)]);
    reflexivity.
Defined.

(** A memento that rejects every update. *)
Lemma rejected_update_fires_nothing_witness :
  (fun (_ : string) (_ : bool) (m : ListMemento.t) => (m, Some "update failed"))
    "autoTriggerEnabled" true [] = ([], Some "update failed") /\
  result (CodeSuggestionsState.toggleSuggestions "autoTriggerEnabled" ListMemento.get
            (fun _ _ m => (m, Some "update failed")))
    (CodeSuggestionsState.new [] false) = Throw "update failed" /\
  CodeSuggestionsState.fired
    (after (CodeSuggestionsState.toggleSuggestions "autoTriggerEnabled" ListMemento.get
              (fun _ _ m => (m, Some "update failed")))
       (CodeSuggestionsState.new [] false)) = [] /\
  result (CodeSuggestionsState.setSuggestionsEnabled "autoTriggerEnabled" ListMemento.get
            (fun _ _ m => (m, Some "update failed")) true)
    (CodeSuggestionsState.new [] false) = Throw "update failed" /\
  CodeSuggestionsState.fired
    (after (CodeSuggestionsState.setSuggestionsEnabled "autoTriggerEnabled" ListMemento.get
              (fun _ _ m => (m, Some "update failed")) true)
       (CodeSuggestionsState.new [] false)) = [].
Proof.
  split; [reflexivity |].
  apply (rejected_update_fires_nothing "autoTriggerEnabled" ListMemento.get
           (fun _ _ m => (m, Some "update failed"))
           (CodeSuggestionsState.new [] false) [] "update failed").
  reflexivity.
Defined.

Lemma ListMemento_stores (v : bool) (m : ListMemento.t) :
  exists m', ListMemento.set "autoTriggerEnabled" v m = (m', None) /\
             ListMemento.get "autoTriggerEnabled" m' = Some v.
Proof. exists (("autoTriggerEnabled", v) :: m). split; reflexivity. Defined.

Lemma setSuggestionsEnabled_sets_witness :
  (forall (v : bool) (m : ListMemento.t),
      exists m', ListMemento.set "autoTriggerEnabled" v m = (m', None) /\
                 ListMemento.get "autoTriggerEnabled" m' = Some v) /\
  result (CodeSuggestionsState.isSuggestionsEnabled "autoTriggerEnabled" ListMemento.get)
    (after (CodeSuggestionsState.setSuggestionsEnabled "autoTriggerEnabled"
              ListMemento.get ListMemento.set true)
       (CodeSuggestionsState.new [] false)) = true /\
  CodeSuggestionsState.fired
    (after (CodeSuggestionsState.setSuggestionsEnabled "autoTriggerEnabled"
              ListMemento.get ListMemento.set true)
       (CodeSuggestionsState.new [] false)) = [true].
Proof.
  split; [exact ListMemento_stores |].
  pose proof (setSuggestionsEnabled_sets "autoTriggerEnabled" ListMemento.get ListMemento.set
                (CodeSuggestionsState.new [] false) true ListMemento_stores) as W.
  cbv zeta in W. destruct W as [_ [En [Fi _]]].
  split; [exact En | exact Fi].
Defined.

Lemma toggleSuggestions_twice_witness :
  (forall (v : bool) (m : ListMemento.t),
      exists m', ListMemento.set "autoTriggerEnabled" v m = (m', None) /\
                 ListMemento.get "autoTriggerEnabled" m' = Some v) /\
  result (CodeSuggestionsState.isSuggestionsEnabled "autoTriggerEnabled" ListMemento.get)
    (after (CodeSuggestionsState.toggleSuggestions "autoTriggerEnabled"
              ListMemento.get ListMemento.set)
       (after (CodeSuggestionsState.toggleSuggestions "autoTriggerEnabled"
                 ListMemento.get ListMemento.set)
          (CodeSuggestionsState.new [] true))) = true /\
  CodeSuggestionsState.fired
    (after (CodeSuggestionsState.toggleSuggestions "autoTriggerEnabled"
              ListMemento.get ListMemento.set)
       (after (CodeSuggestionsState.toggleSuggestions "autoTriggerEnabled"
                 ListMemento.get ListMemento.set)
          (CodeSuggestionsState.new [] true))) = [false; true].
Proof.
  split; [exact ListMemento_stores |].
  exact (toggleSuggestions_twice "autoTriggerEnabled" ListMemento.get ListMemento.set
           (CodeSuggestionsState.new [] true) ListMemento_stores).
Defined.

Lemma code_config_needs_no_template_witness :
  DebugConfiguration.assertTargetKind (host := ExampleHost.host) (ExampleHost.code_config "app")
    DebugConfiguration.ExpectCode = Return tt /\
  DebugConfiguration.getTemplate (host := ExampleHost.host) None (ExampleHost.code_config "app")
  = DebugConfiguration.JSUndefined /\
  DebugConfiguration.getTemplateResource (host := ExampleHost.host) None
    (ExampleHost.code_config "app") = Return DebugConfiguration.JSUndefined /\
  DebugConfiguration.getCodeRoot (host := ExampleHost.host) None (ExampleHost.code_config "app")
  = Return (Some "/ws/app") /\
  DebugConfiguration.getHandlerName (host := ExampleHost.host) None
    (ExampleHost.code_config "app")
  = (Return (DebugConfiguration.JSString "index.handler"), []).
Proof.
  split; [reflexivity |].
  apply (code_config_needs_no_template (host := ExampleHost.host) None
           (ExampleHost.code_config "app")).
  reflexivity.
Defined.


(** A template config naming a resource whose [Properties] have no
    [CodeUri] and no [Handler]: the handler is [undefined], and the code root
    is the [TypeError] of [path.resolve]. *)
Lemma template_resource_found_witness :
  DebugConfiguration.target (ExampleHost.template_config "Image") = "template" /\
  DebugConfiguration.getTemplateResource (host := ExampleHost.host) None
    (ExampleHost.template_config "Image") = Return ExampleHost.image_resource /\
  DebugConfiguration.getHandlerName (host := ExampleHost.host) None
    (ExampleHost.template_config "Image") = (Return DebugConfiguration.JSUndefined, []) /\
  DebugConfiguration.getCodeRoot (host := ExampleHost.host) None
    (ExampleHost.template_config "Image")
  = Throw "The paths[1] argument must be of type string.".
Proof.
  split; [reflexivity |]. split; [reflexivity |].
  apply (template_resource_found (host := ExampleHost.host) None
           (ExampleHost.template_config "Image") ExampleHost.image_resource);
    reflexivity.
Defined.

Lemma ExampleHost_normalize_idempotent (p : string) :
  DebugConfiguration.normalize (Host := ExampleHost.host)
    (DebugConfiguration.normalize (Host := ExampleHost.host) p)
  = DebugConfiguration.normalize (Host := ExampleHost.host) p.
Proof.
  cbn [DebugConfiguration.normalize ExampleHost.host].
  induction p as [| c rest IH]; [reflexivity |].
  cbn [ExampleHost.map_string]. rewrite IH. f_equal.
  unfold ExampleHost.slashes at 2 3.
  destruct (Ascii.eqb c "092"%char) eqn:E; [reflexivity |].
  unfold ExampleHost.slashes. rewrite E. reflexivity.
Defined.

(** A code config whose [projectRoot] is written with a backslash: the
    absolute path is not normalized, the code root returned is. *)
Lemma getCodeRoot_normalized_witness :
  (forall p : string,
      DebugConfiguration.normalize (Host := ExampleHost.host)
        (DebugConfiguration.normalize (Host := ExampleHost.host) p)
      = DebugConfiguration.normalize (Host := ExampleHost.host) p) /\
  DebugConfiguration.getCodeRoot (host := ExampleHost.host) None
    (ExampleHost.code_config ("app" ++ String "092"%char "src"))
  = Return (Some "/ws/app/src") /\
  DebugConfiguration.normalize (Host := ExampleHost.host)
    (DebugConfiguration.tryGetAbsolutePath (Host := ExampleHost.host) None
       ("app" ++ String "092"%char "src"))
  <> DebugConfiguration.tryGetAbsolutePath (Host := ExampleHost.host) None
       ("app" ++ String "092"%char "src") /\
  DebugConfiguration.normalize (Host := ExampleHost.host) "/ws/app/src" = "/ws/app/src".
Proof.
  split; [exact ExampleHost_normalize_idempotent |].
  split; [reflexivity |]. split; [discriminate |].
  apply (getCodeRoot_normalized (host := ExampleHost.host) None
           (ExampleHost.code_config ("app" ++ String "092"%char "src")) "/ws/app/src");
    [exact ExampleHost_normalize_idempotent | reflexivity].
Defined.

(** Two look-ups that are not look-ups of entries: the inherited member
    'constructor' is truthy and is returned, and the entry 'Off', which is
    [null], counts as missing. *)
Lemma getTemplateResource_property_access :
  DebugConfiguration.getTemplateResource (host := ExampleHost.host) None
    (ExampleHost.template_config "constructor") = Return ExampleHost.Object_constructor /\
  DebugConfiguration.getTemplateResource (host := ExampleHost.host) None
    (ExampleHost.template_config "Off")
  = Throw "template Resources object does not contain key 'Off': {Fn, Image, Bare, Off}".
Proof. split; reflexivity. Qed.
